(** * karmadactl get: fan-out, table reconstruction and watch

    A shallow embedding of [pkg/karmadactl/get/get.go].  Go values are
    modelled as follows.

    - An [error] is identified with its message (what [Error()] returns);
      [fmt.Errorf] is string concatenation.  The aggregate that [Run]
      returns keeps its list of errors; [Error_] gives its message, in
      which every message stands once.
    - A Go function returning [(T, error)] returns [result T error].
    - A run-time panic (index out of range, [panic(err)], call of a nil
      func) is the [Panic] case of [outcome]; nothing in the file recovers
      from a panic, so it ends the process.  [Blocked] is a call that
      never returns ([wg.Wait()] on a counter nobody decrements).
    - The package variable [podColumns], the output streams and the
      writers wrapped around them are fields of an explicit [World] that
      every effectful function threads.
    - [map[string]string] is a [gmap string string]; [sets.String] is a
      [gset string].
    - What lives in other packages (apimachinery, cli-runtime, the karmada
      helpers) is taken as a parameter, gathered in the class [Deps]. *)

From Stdlib Require Import ZArith Lia Permutation.
From stdpp Require Import base strings list gmap sorting.

Set Default Proof Using "Type".

(** ** Errors and panics *)

Definition error := string.

Inductive outcome (A : Type) : Type :=
| Done (a : A)
| Failed (e : error)
| Panic (msg : string)
| Blocked.
Arguments Done {A} a.
Arguments Failed {A} e.
Arguments Panic {A} msg.
Arguments Blocked {A}.

(** ** Resource-type identity *)

Record GroupVersionKind := mkGVK {
  gvk_Group : string; gvk_Version : string; gvk_Kind : string }.

Record GroupVersionResource := mkGVR {
  gvr_Group : string; gvr_Version : string; gvr_Resource : string }.

Inductive RESTScopeName := RESTScopeNameNamespace | RESTScopeNameRoot.

Record RESTMapping := mkMapping {
  Resource : GroupVersionResource;
  GroupVersionKind_ : GroupVersionKind;
  Scope : RESTScopeName }.

#[global] Instance GroupVersionKind_eq_dec : EqDecision GroupVersionKind.
Proof. solve_decision. Defined.
#[global] Instance GroupVersionResource_eq_dec : EqDecision GroupVersionResource.
Proof. solve_decision. Defined.
#[global] Instance RESTScopeName_eq_dec : EqDecision RESTScopeName.
Proof. solve_decision. Defined.

(** [schema.GroupVersionResource.String()]: group/version joined by a
    slash behind [", Resource="]. *)
Definition gvr_String (r : GroupVersionResource) : string :=
  gvr_Group r +:+ "/" +:+ gvr_Version r +:+ ", Resource=" +:+ gvr_Resource r.

(** ** Tables *)

(** [type adoption string] and its three constants. *)
Inductive adoption := managedByKarmada | notManagedByKaramda | notApplicable.

Definition adoption_string (a : adoption) : string :=
  match a with
  | managedByKarmada => "Y"
  | notManagedByKaramda => "N"
  | notApplicable => "-"
  end.

(** A cell is an [interface{}]: a JSON scalar decoded from the server's
    table, or a value of the named type [adoption] appended in list mode. *)
Inductive Cell :=
| CellString (s : string)
| CellInt (z : Z)
| CellBool (b : bool)
| CellNull
| CellAdoption (a : adoption).

(** The text a cell marshals to when it is a string or an [adoption]. *)
Definition cellText (c : Cell) : option string :=
  match c with
  | CellString s => Some s
  | CellAdoption a => Some (adoption_string a)
  | _ => None
  end.

Record TableColumnDefinition := mkColumn {
  Name : string; Type_ : string; Format : string; Priority : Z }.

(** [Raw] is [Object.Raw] of the row's [runtime.RawExtension]. *)
Record TableRow := mkRow { Cells : list Cell; Raw : string }.

Record Table := mkTable {
  ColumnDefinitions : list TableColumnDefinition;
  Rows : list TableRow }.

Definition emptyTable : Table := mkTable [] [].

Definition printColumnClusterNum : nat := 1.

(** Initial value of the package variable [podColumns]. *)
Definition podColumns_init : list TableColumnDefinition :=
  [ mkColumn "CLUSTER" "string" "" 0; mkColumn "ADOPTION" "string" "" 0 ].

Definition eventColumn : TableColumnDefinition := mkColumn "EVENT" "string" "" 0.

(** ** The world threaded through the effectful code *)

Record World := mkWorld {
  podColumns : list TableColumnDefinition;  (* package variable *)
  Out : list string;                        (* chunks written to g.Out *)
  ErrOut : list string;                     (* chunks written to g.ErrOut *)
  Subscribed : list string;                 (* clusters on which r.Watch succeeded *)
  outputObjects : bool                      (* the cell behind *outputObjects *)
}.

Definition world_init : World := mkWorld podColumns_init [] [] [] true.

Definition set_podColumns (c : list TableColumnDefinition) (w : World) : World :=
  mkWorld c (Out w) (ErrOut w) (Subscribed w) (outputObjects w).
Definition write_Out (p : string) (w : World) : World :=
  mkWorld (podColumns w) (Out w ++ [p]) (ErrOut w) (Subscribed w) (outputObjects w).
Definition write_ErrOut (p : string) (w : World) : World :=
  mkWorld (podColumns w) (Out w) (ErrOut w ++ [p]) (Subscribed w) (outputObjects w).
Definition subscribe (cluster : string) (w : World) : World :=
  mkWorld (podColumns w) (Out w) (ErrOut w) (Subscribed w ++ [cluster]) (outputObjects w).
Definition set_outputObjects (b : bool) (w : World) : World :=
  mkWorld (podColumns w) (Out w) (ErrOut w) (Subscribed w) b.

(** State, error and panic monad. *)
Definition M (A : Type) : Type := World -> outcome A * World.

Definition ret {A} (a : A) : M A := fun w => (Done a, w).
Definition fail {A} (e : error) : M A := fun w => (Failed e, w).
Definition panic {A} (msg : string) : M A := fun w => (Panic msg, w).
Definition bind {A B} (m : M A) (k : A -> M B) : M B :=
  fun w => match m w with
           | (Done a, w') => k a w'
           | (Failed e, w') => (Failed e, w')
           | (Panic msg, w') => (Panic msg, w')
           | (Blocked, w') => (Blocked, w')
           end.
Definition get_world : M World := fun w => (Done w, w).
Definition modify (f : World -> World) : M unit := fun w => (Done tt, f w).

Notation "'do' x <- m ; k" := (bind m (fun x => k))
  (at level 10, x name, m at level 100, k at level 200).
Notation "m ;; k" := (bind m (fun _ => k))
  (at level 100, k at level 200, right associativity).

(** Lifting of a pure [outcome] and of a [(T, error)] result. *)
Definition lift {A} (o : outcome A) : M A := fun w => (o, w).
Definition of_result {A} (r : result A error) : outcome A :=
  match r with Ok a => Done a | Error e => Failed e end.

(** [mapM] over a list, left to right, for the pure part of the code. *)
Fixpoint mapO {A B} (f : A -> outcome B) (l : list A) : outcome (list B) :=
  match l with
  | [] => Done []
  | a :: l' =>
      match f a with
      | Done b =>
          match mapO f l' with
          | Done bs => Done (b :: bs)
          | Failed e => Failed e
          | Panic msg => Panic msg
          | Blocked => Blocked
          end
      | Failed e => Failed e
      | Panic msg => Panic msg
      | Blocked => Blocked
      end
  end.

(** ** Options *)

Inductive OperationScope := KarmadaControlPlane | Members | All.

(** Modelled from the spec: [options.ContainKarmadaScope] is not in the
    file; the spec's scopes are control-plane-only, members-only and all,
    and the control plane is a target under the first and the last. *)
Definition ContainKarmadaScope (s : OperationScope) : bool :=
  match s with KarmadaControlPlane | All => true | Members => false end.

(** A [printers.ResourcePrinterFunc].  The text it would write is its
    result; its first argument is the value of [*outputObjects] at the
    time of the call, which only a printer built with that pointer reads.
    A printer is taken to be a function of the table it is given (in
    list mode every printer prints one table only). *)
Definition ResourcePrinterFunc : Type := bool -> Table -> result string error.

(** The fields of [CommandGetOptions] the modelled code reads.  The
    second argument of [ToPrinter] tells whether [outputObjects] is
    non-nil. *)
Record CommandGetOptions := mkOptions {
  OperationScope_ : OperationScope;
  TargetMemberClusters : list string;
  ToPrinter : option RESTMapping -> bool -> bool -> bool ->
              result ResourcePrinterFunc error;
  IsHumanReadablePrinter : bool;
  Watch : bool;
  WatchOnly : bool;
  OutputWatchEvents : bool;
  Namespace : string;
  AllNamespaces : bool;
  NoHeaders : bool;
  IgnoreNotFound : bool
}.

(** ** Column definitions *)

(** [setNoAdoption]: [podColumns[printColumnClusterNum].Priority = 1] when
    the mapping is that of pods.  The indexed store panics out of range. *)
Definition setNoAdoption (mapping : option RESTMapping) : M unit :=
  match mapping with
  | Some m =>
      if String.eqb (gvr_Resource (Resource m)) "pods" then
        do w <- get_world;
        match podColumns w !! printColumnClusterNum with
        | Some c =>
            modify (set_podColumns
              (<[printColumnClusterNum :=
                   mkColumn (Name c) (Type_ c) (Format c) 1]> (podColumns w)))
        | None => panic "index out of range"
        end
      else ret tt
  | None => ret tt
  end.

(** [setColumnDefinition].  [podColumns[0]] and [podColumns[1:]] panic on
    an empty slice. *)
Definition setColumnDefinition (g : CommandGetOptions) (table : Table) : M Table :=
  match ColumnDefinitions table with
  | [] => ret table
  | cd0 :: cds =>
      do w <- get_world;
      match podColumns w with
      | [] => panic "index out of range"
      | pc0 :: pcs =>
          let temp :=
            if OutputWatchEvents g
            then [eventColumn; cd0; pc0] ++ cds ++ pcs
            else [cd0; pc0] ++ cds ++ pcs in
          ret (mkTable temp (Rows table))
      end
  end.

(** ** External collaborators *)

(** Everything the file calls in other packages.  [RuntimeObject] is
    [runtime.Object]; [Unstructured] is [*unstructured.Unstructured].
    [FromUnstructured] stands for
    [runtime.DefaultUnstructuredConverter.FromUnstructured(unstr.Object, table)],
    which overwrites every field of [table]; [ToUnstructured] for
    [helper.ToUnstructured], of which only the failure is observed here.
    [ManagedByKarmadaLabel] and [ManagedByKarmadaLabelValue] are the
    constants of [pkg/util].  [sort_Slice] is [sort.Slice], which is not
    stable: all that is taken for granted is that it permutes its
    argument.  [ExtractList] gives the items that [meta.ExtractList]
    returns and [ExtractListErr] the error beside them.  [ComposeList]
    stands for [json.Marshal] of a [corev1.List] of the objects followed
    by [runtime.Decode]; [DisplayList obj items] for the
    [unstructured.UnstructuredList] that [printGeneric] builds from the
    items, with the list metadata of [obj]; [PrintObj printer obj] for
    [printer.PrintObj(obj, w)] on an object that need not be a table:
    the text it writes, or its error. *)
Class Deps : Type := {
  RuntimeObject : Type;
  Unstructured : Type;
  asUnstructured : RuntimeObject -> option Unstructured;
  FromUnstructured : Unstructured -> result Table error;
  UnmarshalJSON : string -> result Unstructured error;
  GetLabels : Unstructured -> gmap string string;
  IsListType : RuntimeObject -> bool;
  ExtractList : RuntimeObject -> list RuntimeObject;
  ResourceVersion : RuntimeObject -> result string error;
  ToUnstructured : Table -> option error;
  ExtractListErr : RuntimeObject -> option error;
  ComposeList : list RuntimeObject -> result RuntimeObject error;
  DisplayList : RuntimeObject -> list Unstructured -> RuntimeObject;
  PrintObj : ResourcePrinterFunc -> RuntimeObject -> result string error;
  ManagedByKarmadaLabel : string;
  ManagedByKarmadaLabelValue : string;
  sort_Slice : forall A : Type, (A -> A -> bool) -> list A -> list A;
  sort_Slice_perm : forall A less (l : list A), sort_Slice A less l ≡ₚ l
}.

(** ** Schedules of the fan-out

    The goroutines of [Run] append to [*objs] and [*watchObjs] under the
    mutex, and to [*allErrs] outside it.  A step of a schedule names a
    task, by its index in [g.TargetMemberClusters], and tells how stale
    its read of [*allErrs] is: the append of [err] to [*allErrs] reads
    the slice, and stores the slice it read with [err] behind it; the
    appends that other tasks made in between -- the last [missed] steps
    -- are lost.  (Which of two errors written to the same slot of one
    backing array stays there is not modelled: the task's own does.) *)
Record Step := mkStep { task : nat; missed : nat }.

Definition Schedule : Type := list Step.

(** The schedule in which no append overlaps another. *)
Definition promptly (sched : list nat) : Schedule :=
  map (fun i => mkStep i 0) sched.

#[warnings="-uniform-inheritance"]
Coercion promptly : list >-> Schedule.

(** The value of [*allErrs] that a task reads: the one of [missed] steps
    ago, of the states newest first; the oldest when there were fewer. *)
Definition readErrs (missed : nat) (now : list error) (older : list (list error))
  : list error :=
  default (default now (last (now :: older))) ((now :: older) !! missed).

(** The content of [*allErrs] after a run of appends, each of the errors
    [es] (none, or one) of a task to the list that the task read. *)
Fixpoint raced (appends : list (list error * nat)) (older : list (list error))
    (now : list error) : list error :=
  match appends with
  | [] => now
  | (es, missed) :: rest =>
      raced rest (now :: older)
        (if bool_decide (es = []) then now else readErrs missed now older ++ es)
  end.

Section Get.
Context `{Deps}.

(** [resource.Info], with the fields the file reads. *)
Record Info := mkInfo { Mapping : RESTMapping; Object : RuntimeObject }.

(** [Info.Namespaced()]. *)
Definition Namespaced (i : Info) : bool :=
  bool_decide (Scope (Mapping i) = RESTScopeNameNamespace).

Record Obj := mkObj { Cluster : string; IsControlPlane : bool; Info_ : Info }.

(** The label test shared by both reconstructions:
    [v, exist := unObj.GetLabels()[ManagedByKarmadaLabel];
     exist && v == ManagedByKarmadaLabelValue]. *)
Definition managedLabel (unObj : Unstructured) : bool :=
  match GetLabels unObj !! ManagedByKarmadaLabel with
  | Some v => String.eqb v ManagedByKarmadaLabelValue
  | None => false
  end.

(** Body of the row loop of [reconstructionRow].  [Cells[0]] panics on a
    row without cells; a row whose [Raw] does not unmarshal is logged and
    left with the cluster cell only ([continue]). *)
Definition reconstructionRow_row (o : Obj) (row : TableRow) : outcome TableRow :=
  match Cells row with
  | [] => Panic "index out of range [0] with length 0"
  | c0 :: rest =>
      let cells := [c0; CellString (Cluster o)] ++ rest in
      match UnmarshalJSON (Raw row) with
      | Error _ => Done (mkRow cells (Raw row))
      | Ok unObj =>
          if IsControlPlane o then
            Done (mkRow (cells ++ [CellAdoption notApplicable]) (Raw row))
          else if managedLabel unObj then
            Done (mkRow (cells ++ [CellAdoption managedByKarmada]) (Raw row))
          else
            Done (mkRow (cells ++ [CellAdoption notManagedByKaramda]) (Raw row))
      end
  end.

(** [reconstructionRow objs table].  The result is the triple the Go
    function returns together with the final content of [*table], which
    the caller goes on using. *)
Fixpoint reconstructionRow_loop (objs : list Obj) (table : Table)
    (allTableRows : list TableRow) (mapping : option RESTMapping)
  : outcome (list TableRow * option RESTMapping * Table) :=
  match objs with
  | [] => Done (allTableRows, mapping, table)
  | o :: objs' =>
      let mapping := Some (Mapping (Info_ o)) in
      match asUnstructured (Object (Info_ o)) with
      | None => Failed "attempt to decode non-Unstructured object"
      | Some unstr =>
          match FromUnstructured unstr with
          | Error e => Failed e
          | Ok table =>
              match mapO (reconstructionRow_row o) (Rows table) with
              | Done rows =>
                  reconstructionRow_loop objs'
                    (mkTable (ColumnDefinitions table) rows)
                    (allTableRows ++ rows) mapping
              | Failed e => Failed e
              | Panic msg => Panic msg
              | Blocked => Blocked
              end
          end
      end
  end.

Definition reconstructionRow (objs : list Obj) (table : Table)
  : outcome (list TableRow * option RESTMapping * Table) :=
  reconstructionRow_loop objs table [] None.

(** Body of the row loop of [reconstructObj]. *)
Definition reconstructObj_row (g : CommandGetOptions) (cluster event : string)
    (row : TableRow) : outcome TableRow :=
  match Cells row with
  | [] => Panic "index out of range [0] with length 0"
  | c0 :: rest =>
      let cells :=
        if OutputWatchEvents g
        then [CellString event; c0; CellString cluster] ++ rest
        else [c0; CellString cluster] ++ rest in
      match UnmarshalJSON (Raw row) with
      | Error _ => Done (mkRow cells (Raw row))
      | Ok unObj =>
          if managedLabel unObj then
            Done (mkRow (cells ++ [CellString "Y"]) (Raw row))
          else
            Done (mkRow (cells ++ [CellString "N"]) (Raw row))
      end
  end.

(** [reconstructObj]. *)
Definition reconstructObj (g : CommandGetOptions) (obj : RuntimeObject)
    (mapping : option RESTMapping) (cluster event : string) : M Table :=
  match asUnstructured obj with
  | None => fail "attempt to decode non-Unstructured object"
  | Some unstr =>
      do table <- lift (of_result (FromUnstructured unstr));
      do rows <- lift (mapO (reconstructObj_row g cluster event) (Rows table));
      let table := mkTable (ColumnDefinitions table) rows in
      setNoAdoption mapping;;
      setColumnDefinition g table
  end.

(** ** List mode: rendering *)

(** The variable [printer printers.ResourcePrinter] of [printObjs]: the
    nil interface, an interface holding the nil func that [g.ToPrinter]
    returns beside an error, or a printer. *)
Inductive printerVar :=
| printerNil
| printerNilFunc
| printerFunc (p : ResourcePrinterFunc).

Definition shouldGetNewPrinterForMapping (printer : printerVar)
    (lastMapping mapping : option RESTMapping) : bool :=
  match printer, lastMapping, mapping with
  | printerNil, _, _ => true
  | _, None, _ => true
  | _, _, None => true
  | _, Some l, Some m => negb (bool_decide (Resource m = Resource l))
  end.

Definition checkPrintWithNamespace (g : CommandGetOptions)
    (mapping : option RESTMapping) : bool :=
  match mapping with
  | Some m =>
      if bool_decide (Scope m = RESTScopeNameRoot) then false else AllNamespaces g
  | None => AllNamespaces g
  end.

Fixpoint differsFromFirst (gvk : GroupVersionKind) (objs : list Obj) : bool :=
  match objs with
  | [] => false
  | obj :: objs' =>
      if bool_decide (GroupVersionKind_ (Mapping (Info_ obj)) = gvk)
      then differsFromFirst gvk objs'
      else true
  end.

Definition multipleGVKsRequested (objs : list Obj) : bool :=
  match objs with
  | [] | [_] => false
  | o0 :: _ => differsFromFirst (GroupVersionKind_ (Mapping (Info_ o0))) objs
  end.

(** The writers of [printObjs]: the tab writer [w] buffers what the
    printer writes and hands it on at [Flush] (alignment is left out, the
    buffered text goes on in one [Write]); below it
    [separatorWriterWrapper] and [trackingWriterWrapper]. *)
Record Writers := mkWriters { Written : nat; Ready : bool; buffer : string }.

Definition LF : string := String (Ascii.ascii_of_nat 10) EmptyString.

(** [trackingWriterWrapper.Write]. *)
Definition trackingWrite (p : string) (ws : Writers) : M Writers :=
  modify (write_Out p);;
  ret (mkWriters (Written ws + String.length p) (Ready ws) (buffer ws)).

(** [separatorWriterWrapper.Write]. *)
Definition separatorWrite (p : string) (ws : Writers) : M Writers :=
  if negb (String.length p =? 0)%nat && Ready ws then
    do ws <- trackingWrite LF ws;
    trackingWrite p (mkWriters (Written ws) false (buffer ws))
  else trackingWrite p ws.

(** [w.Flush()]. *)
Definition Flush (ws : Writers) : M Writers :=
  if (String.length (buffer ws) =? 0)%nat then ret ws
  else separatorWrite (buffer ws) (mkWriters (Written ws) (Ready ws) "").

(** [printIfNotFindResource]. *)
Definition printIfNotFindResource (g : CommandGetOptions) (written : nat)
    (allErrs : list error) (allResourcesNamespaced : bool) : M unit :=
  if negb (written =? 0)%nat || IgnoreNotFound g || negb (length allErrs =? 0)%nat
  then ret tt
  else if negb (ContainKarmadaScope (OperationScope_ g))
          && (length (TargetMemberClusters g) =? 0)%nat
  then modify (write_ErrOut ("No member Clusters found in Karmada control plane" +:+ LF))
  else if allResourcesNamespaced
  then modify (write_ErrOut ("No resources found in " +:+ Namespace g +:+ " namespace." +:+ LF))
  else modify (write_ErrOut ("No resources found" +:+ LF)).

(** How the loop of [printObjs] is left: by one of its [return]s, with
    the error list as it then stands, or at its end. *)
Inductive loopExit :=
| Returned (allErrs : list error)
| Finished (ws : Writers) (allResourcesNamespaced : bool) (allErrs : list error).

(** The end of a resource group in [printObjs]: rebuild the rows, set the
    columns, print into the tab writer. *)
Definition printGroup (g : CommandGetOptions) (printer : printerVar)
    (sameKind : list Obj) (ws : Writers) (allErrs : list error)
  : M (list error + Writers) :=
  match reconstructionRow sameKind emptyTable with
  | Failed e => ret (inl (allErrs ++ [e]))
  | Panic msg => panic msg
  | Blocked => lift Blocked
  | Done (allTableRows, mapping, table) =>
      let table := mkTable (ColumnDefinitions table) allTableRows in
      setNoAdoption mapping;;
      do table <- setColumnDefinition g table;
      match ToUnstructured table with
      | Some e => ret (inl (allErrs ++ [e]))
      | None =>
          match printer with
          | printerFunc p =>
              do w <- get_world;
              match p (outputObjects w) table with
              | Error e => ret (inl (allErrs ++ [e]))
              | Ok text =>
                  ret (inr (mkWriters (Written ws) (Ready ws) (buffer ws +:+ text)))
              end
          | _ => panic "invalid memory address or nil pointer dereference"
          end
      end
  end.

Fixpoint printObjs_loop (g : CommandGetOptions) (printWithKind : bool)
    (objs : list Obj) (errs : gset string) (printer : printerVar)
    (lastMapping : option RESTMapping) (ws : Writers)
    (allResourcesNamespaced : bool) (sameKind : list Obj)
    (allErrs : list error) : M loopExit :=
  match objs with
  | [] => ret (Finished ws allResourcesNamespaced allErrs)
  | o :: objs' =>
      let mapping := Mapping (Info_ o) in
      let sameKind := sameKind ++ [o] in
      let allResourcesNamespaced := allResourcesNamespaced && Namespaced (Info_ o) in
      let printWithNamespace := checkPrintWithNamespace g (Some mapping) in
      let endOfGroup :=
        match objs' with
        | [] => true
        | o' :: _ => negb (bool_decide (Resource mapping = Resource (Mapping (Info_ o'))))
        end in
      let rest printer lastMapping ws :=
        if endOfGroup then
          do r <- printGroup g printer sameKind ws allErrs;
          match r with
          | inl allErrs => ret (Returned allErrs)
          | inr ws =>
              printObjs_loop g printWithKind objs' errs printer lastMapping ws
                allResourcesNamespaced [] allErrs
          end
        else
          printObjs_loop g printWithKind objs' errs printer lastMapping ws
            allResourcesNamespaced sameKind allErrs in
      if shouldGetNewPrinterForMapping printer lastMapping (Some mapping) then
        do ws <- Flush ws;
        let ws :=
          if bool_decide (lastMapping <> None) && negb (NoHeaders g)
             && negb (Written ws =? 0)%nat
          then mkWriters (Written ws) true (buffer ws) else ws in
        match ToPrinter g (Some mapping) false printWithNamespace printWithKind with
        | Error e =>
            if bool_decide (e ∈ errs) then
              printObjs_loop g printWithKind objs' errs printerNilFunc lastMapping
                ws allResourcesNamespaced sameKind allErrs
            else
              printObjs_loop g printWithKind objs' ({[ e ]} ∪ errs) printerNilFunc
                lastMapping ws allResourcesNamespaced sameKind (allErrs ++ [e])
        | Ok p => rest (printerFunc p) (Some mapping) ws
        end
      else rest printer lastMapping ws
  end.

(** [printObjs]; its result is the final content of [*allErrs]. *)
Definition printObjs (g : CommandGetOptions) (objs : list Obj)
    (allErrs : list error) : M (list error) :=
  let printWithKind := multipleGVKsRequested objs in
  do r <- printObjs_loop g printWithKind objs ∅ printerNil None
            (mkWriters 0 false "") (negb (AllNamespaces g)) [] allErrs;
  match r with
  | Returned allErrs => ret allErrs
  | Finished ws allResourcesNamespaced allErrs =>
      do ws <- Flush ws;
      printIfNotFindResource g (Written ws) allErrs allResourcesNamespaced;;
      ret allErrs
  end.

(** ** Fan-out *)

Record Event := mkEvent { ev_Type : string; ev_Object : RuntimeObject }.

(** A [*resource.Result].  [r_Watch rv] gives the events the watch
    delivers before its channel is closed.  [r_Partial] holds the infos
    that [Infos()] returns beside an error (the builder continues on
    error), and [r_SingleItemImplied] what [IntoSingleItemImplied]
    stores. *)
Record Result := mkResult {
  r_Err : option error;
  r_Infos : result (list Info) error;
  r_Object : result RuntimeObject error;
  r_Watch : string -> result (list Event) error;
  r_Partial : list Info;
  r_SingleItemImplied : bool }.

Record WatchObj := mkWatchObj { WatchObj_Cluster : string; WatchObj_r : Result }.

(** A [cmdutil.Factory], as far as [getObjInfo] uses it: the error of
    [RESTClient()], the error of [DoRaw] on a request URI, and the result
    of the builder chain for the options and arguments at hand (with
    not-found errors ignored when [g.IgnoreNotFound] is set). *)
Record CmdFactory := mkFactory {
  RESTClient : option error;
  DoRaw : string -> option error;
  Do : CommandGetOptions -> list string -> Result }.

(** A [util.Factory]: the control plane's factory and the member ones. *)
Record UtilFactory := mkUtilFactory {
  controlPlane : CmdFactory;
  FactoryForMemberCluster : string -> result CmdFactory error }.

(** [printGeneric] (the json/yaml path) is left open: the error it
    returns and what it writes are whatever this function says. *)
Variable printGeneric : CommandGetOptions -> Result -> M (option error).

Definition proxyURL (cluster : string) : string :=
  "/apis/cluster.karmada.io/v1alpha1/clusters/" +:+ cluster +:+ "/proxy/".

(** The three containers [Run] shares with its tasks. *)
Record Collected := mkCollected {
  objs : list Obj; watchObjs : list WatchObj; allErrs : list error }.

Definition addErr (c : Collected) (e : error) : Collected :=
  mkCollected (objs c) (watchObjs c) (allErrs c ++ [e]).

Definition inaccessible (cluster : string) : error :=
  "cluster(" +:+ cluster +:+ ") is inaccessible, please check authorization or network".

(** [fmt.Errorf("cluster(%s): %s", cluster, err)]. *)
Definition clusterErr (cluster : string) (err : error) : error :=
  "cluster(" +:+ cluster +:+ "): " +:+ err.

(** [getObjInfo], on the containers as the call finds them.  Each call
    touches the shared containers in one place only. *)
Definition getObjInfo (g : CommandGetOptions) (f : CmdFactory) (cluster : string)
    (isControlPlane : bool) (c : Collected) (args : list string) : M Collected :=
  match RESTClient f with
  | Some err => ret (addErr c err)
  | None =>
      if negb isControlPlane && bool_decide (is_Some (DoRaw f (proxyURL cluster +:+ "api")))
      then ret (addErr c (inaccessible cluster))
      else
        let r := Do f g args in
        match r_Err r with
        | Some err => ret (addErr c (clusterErr cluster err))
        | None =>
            if Watch g || WatchOnly g then
              ret (mkCollected (objs c) (watchObjs c ++ [mkWatchObj cluster r]) (allErrs c))
            else if negb (IsHumanReadablePrinter g) then
              do e <- printGeneric g r;
              match e with
              | Some err => ret (addErr c (clusterErr cluster err))
              | None => ret c
              end
            else
              match r_Infos r with
              | Error err => ret (addErr c (clusterErr cluster err))
              | Ok infos =>
                  ret (mkCollected
                         (objs c ++ map (fun i => mkObj cluster isControlPlane i) infos)
                         (watchObjs c) (allErrs c))
              end
        end
  end.

(** ** Watch mode *)

(** [_ = intr.Run(...)]: the error of the event loop is dropped. *)
Definition discard (m : M unit) : M unit :=
  fun w => match m w with
           | (Failed _, w') => (Done tt, w')
           | r => r
           end.

(** [writer.Flush()] on the tab writer set straight on [g.Out]. *)
Definition flushOut (text : string) : M unit :=
  if (String.length text =? 0)%nat then ret tt else modify (write_Out text).

(** The function given to [watchtools.UntilWithoutRetry]. *)
Definition onEvent (g : CommandGetOptions) (mapping : option RESTMapping)
    (printer : ResourcePrinterFunc) (cluster : string) (e : Event) : M unit :=
  do objrow <- reconstructObj g (ev_Object e) mapping cluster (ev_Type e);
  let objrow := mkTable [] (Rows objrow) in
  match ToUnstructured objrow with
  | Some err => fail err
  | None =>
      do w <- get_world;
      match printer (outputObjects w) objrow with
      | Error err => fail err
      | Ok text => flushOut text;; modify (set_outputObjects true)
      end
  end.

(** [watchtools.UntilWithoutRetry] with a condition that never says it
    is done: it ends with the condition's error, or with
    [ErrWatchClosed] once the channel is closed.  (It also ends when an
    interrupt cancels the context; interrupts are left out.) *)
Fixpoint UntilWithoutRetry (cond : Event -> M unit) (events : list Event) : M unit :=
  match events with
  | [] => fail "watch closed before UntilWithoutRetry timeout"
  | e :: events' => cond e;; UntilWithoutRetry cond events'
  end.

(** The goroutine [watchMultiClusterObj] starts for one target. *)
Definition watchGoroutine (g : CommandGetOptions) (mapping : option RESTMapping)
    (printer : ResourcePrinterFunc) (watchObj : WatchObj) : M unit :=
  match r_Object (WatchObj_r watchObj) with
  | Error err => panic err
  | Ok obj =>
      do rv <- (if IsListType obj then
                  match ResourceVersion obj with
                  | Error err => panic err
                  | Ok rv => modify (set_outputObjects true);; ret rv
                  end
                else modify (set_outputObjects false);; ret "0");
      match r_Watch (WatchObj_r watchObj) rv with
      | Error err => panic err
      | Ok events =>
          modify (subscribe (WatchObj_Cluster watchObj));;
          discard (UntilWithoutRetry
                     (onEvent g mapping printer (WatchObj_Cluster watchObj)) events)
      end
  end.

(** The goroutines, one after the other in the order of [watchObjs]
    (the schedule in which each stream is drained before the next one
    starts); a panic in one of them ends the process.  The source starts
    them concurrently: what is proved of the watches opened is proved up
    to their order, and of the goroutines in any order of the handles. *)
Fixpoint goEach (body : WatchObj -> M unit) (watchObjs : list WatchObj) : M unit :=
  match watchObjs with
  | [] => ret tt
  | watchObj :: rest => body watchObj;; goEach body rest
  end.

(** [watchMultiClusterObj]: [wg.Add(len(watchObjs))], no [wg.Done()]
    anywhere, [wg.Wait()]. *)
Definition watchMultiClusterObj (g : CommandGetOptions) (watchObjs : list WatchObj)
    (mapping : option RESTMapping) (printer : ResourcePrinterFunc) : M unit :=
  goEach (watchGoroutine g mapping printer) watchObjs;;
  if (length watchObjs =? 0)%nat then ret tt else lift Blocked.

(** The inner loop of the first loop of [watch]: print the rows of the
    current object of target [idx] into the tab writer. *)
Fixpoint printCurrent_objs (g : CommandGetOptions) (mapping : option RESTMapping)
    (printer : ResourcePrinterFunc) (idx : nat) (cluster : string)
    (objsToPrint : list RuntimeObject) (buf : string) : M string :=
  match objsToPrint with
  | [] => ret buf
  | objToPrint :: rest =>
      do objrow <- reconstructObj g objToPrint mapping cluster "ADDED";
      let objrow :=
        if (0 <? idx)%nat then mkTable [] (Rows objrow) else objrow in
      match ToUnstructured objrow with
      | Some err => fail err
      | None =>
          do w <- get_world;
          match printer (outputObjects w) objrow with
          | Error err => fail ("unable to output the provided object: " +:+ err)
          | Ok text =>
              printCurrent_objs g mapping printer idx cluster rest (buf +:+ text)
          end
      end
  end.

Fixpoint printCurrent (g : CommandGetOptions) (mapping : option RESTMapping)
    (printer : ResourcePrinterFunc) (idx : nat) (watchObjs : list WatchObj)
    (buf : string) : M string :=
  match watchObjs with
  | [] => ret buf
  | watchObj :: rest =>
      match r_Object (WatchObj_r watchObj) with
      | Error err => fail err
      | Ok obj =>
          let objsToPrint := if IsListType obj then ExtractList obj else [obj] in
          do buf <- printCurrent_objs g mapping printer idx
                      (WatchObj_Cluster watchObj) objsToPrint buf;
          printCurrent g mapping printer (S idx) rest buf
      end
  end.

(** [watch]; [Failed err] is the error it returns. *)
Definition watch (g : CommandGetOptions) (watchObjs : list WatchObj) : M unit :=
  match watchObjs with
  | [] => fail "not to find obj that is watched"
  | first :: _ =>
      match r_Infos (WatchObj_r first) with
      | Error err => fail err
      | Ok infos =>
          let objs := map (fun i => mkObj (WatchObj_Cluster first) false i) infos in
          if multipleGVKsRequested objs then
            fail "watch is only supported on individual resources and resource collections - more than 1 resource was found"
          else
            match infos with
            | [] => panic "index out of range [0] with length 0"
            | info :: _ =>
                let mapping := Some (Mapping info) in
                modify (set_outputObjects (negb (WatchOnly g)));;
                match ToPrinter g mapping true (AllNamespaces g) false with
                | Error err => fail err
                | Ok printer =>
                    do buf <- printCurrent g mapping printer 0 watchObjs "";
                    flushOut buf;;
                    watchMultiClusterObj g watchObjs mapping printer
                end
            end
      end
  end.

(** ** Run *)

(** What [Run] returns when it returns an error: the error of a callee
    as it is, or the aggregate of [allErrs]. *)
Inductive runError :=
| PlainError (e : error)
| Aggregate (errs : list error).

(** [utilerrors.NewAggregate]: nil for an empty list, otherwise the
    aggregate of the list (none of whose members is nil here). *)
Definition NewAggregate (errlist : list error) : option runError :=
  match errlist with
  | [] => None
  | _ => Some (Aggregate errlist)
  end.

(** The messages that [aggregate.Error()] visits, in the order of the
    list: a message already in [seenerrs] is passed over. *)
Fixpoint aggregate_messages (seenerrs : gset string) (errs : list error)
  : list string :=
  match errs with
  | [] => []
  | err :: errs' =>
      if bool_decide (err ∈ seenerrs) then aggregate_messages seenerrs errs'
      else err :: aggregate_messages ({[ err ]} ∪ seenerrs) errs'
  end.

Fixpoint join_comma (msgs : list string) : string :=
  match msgs with
  | [] => ""
  | [msg] => msg
  | msg :: msgs' => msg +:+ ", " +:+ join_comma msgs'
  end.

(** [aggregate.Error()]: the message of the only error, or the distinct
    messages joined by a comma, between brackets when there are several. *)
Definition Aggregate_Error (errs : list error) : string :=
  match errs with
  | [] => ""
  | [err] => err
  | _ =>
      match aggregate_messages ∅ errs with
      | [msg] => msg
      | msgs => "[" +:+ join_comma msgs +:+ "]"
      end
  end.


(** [utilerrors.Reduce(utilerrors.Flatten(utilerrors.NewAggregate(errs)))]:
    nil, the only error, or the aggregate. *)
Definition Reduce (errs : list error) : option error :=
  match errs with
  | [] => None
  | [err] => Some err
  | _ => Some (Aggregate_Error errs)
  end.

(** [return g.watch(watchObjs)]: the error of a callee, handed on. *)
Definition returning (m : M unit) : M (option runError) :=
  fun w => match m w with
           | (Done _, w') => (Done None, w')
           | (Failed err, w') => (Done (Some (PlainError err)), w')
           | (Panic msg, w') => (Panic msg, w')
           | (Blocked, w') => (Blocked, w')
           end.

(** The loop of [Run] that asks for the member factories: the first
    failure makes [Run] return. *)
Fixpoint memberFactories (f : UtilFactory) (clusters : list string)
  : result (list (string * CmdFactory)) error :=
  match clusters with
  | [] => Ok []
  | cluster :: rest =>
      match FactoryForMemberCluster f cluster with
      | Error err => Error err
      | Ok memberFactory =>
          match memberFactories f rest with
          | Error err => Error err
          | Ok fs => Ok ((cluster, memberFactory) :: fs)
          end
      end
  end.

(** ** The member tasks *)

(** One member task.  What it appends to [*allErrs], it appends to the
    list that it read. *)
Definition runTask (g : CommandGetOptions) (memberFactory : CmdFactory)
    (cluster : string) (missed : nat) (older : list (list error))
    (c : Collected) (args : list string) : M Collected :=
  let read := readErrs missed (allErrs c) older in
  do c' <- getObjInfo g memberFactory cluster false
             (mkCollected (objs c) (watchObjs c) read) args;
  ret (if bool_decide (allErrs c' = read)
       then mkCollected (objs c') (watchObjs c') (allErrs c)
       else c').

(** The member tasks, taking effect in the order [tasks]; [older] holds
    the earlier states of [*allErrs], newest first. *)
Fixpoint runTasks (g : CommandGetOptions) (tasks : list (string * CmdFactory * nat))
    (older : list (list error)) (c : Collected) (args : list string)
  : M Collected :=
  match tasks with
  | [] => ret c
  | (cluster, memberFactory, missed) :: rest =>
      do c' <- runTask g memberFactory cluster missed older c args;
      runTasks g rest (allErrs c :: older) c' args
  end.

(** The tasks picked by the steps of [sched], each with the staleness of
    its step. *)
Definition schedule {A} (sched : Schedule) (tasks : list A) : list (A * nat) :=
  omap (fun s => (fun t => (t, missed s)) <$> tasks !! task s) sched.

Definition lessResource (a b : Obj) : bool :=
  String.ltb (gvr_String (Resource (Mapping (Info_ a))))
             (gvr_String (Resource (Mapping (Info_ b)))).

(** [Run].  The member goroutines end in an order the code does not fix;
    [sched] lists the steps in which their tasks take effect.  When a
    member factory cannot be built, [Run] returns before the join; what
    the goroutines already started would still do is then left out.
    The call for the control plane is made before any goroutine
    starts. *)
Definition Run (g : CommandGetOptions) (f : UtilFactory) (args : list string)
    (sched : Schedule) : M (option runError) :=
  let c := mkCollected [] [] [] in
  do c <- (if ContainKarmadaScope (OperationScope_ g)
           then getObjInfo g (controlPlane f) "Karmada" true c args
           else ret c);
  match memberFactories f (TargetMemberClusters g) with
  | Error err => ret (Some (PlainError err))
  | Ok tasks =>
      do c <- runTasks g (schedule sched tasks) [] c args;
      if Watch g || WatchOnly g then returning (watch g (watchObjs c))
      else if negb (IsHumanReadablePrinter g) then ret None
      else
        let objs := sort_Slice Obj lessResource (objs c) in
        do allErrs <- printObjs g objs (allErrs c);
        ret (NewAggregate allErrs)
  end.

(** What one task adds to the shared containers, and the containers
    with that added.  (Off the json/yaml path a task reads neither the
    containers nor the world, so the task run on empty containers tells
    its share.) *)
Definition share (g : CommandGetOptions) (f : CmdFactory) (cluster : string)
    (isControlPlane : bool) (args : list string) : Collected :=
  match getObjInfo g f cluster isControlPlane (mkCollected [] [] []) args world_init with
  | (Done c, _) => c
  | _ => mkCollected [] [] []
  end.

Definition merge (c d : Collected) : Collected :=
  mkCollected (objs c ++ objs d) (watchObjs c ++ watchObjs d)
              (allErrs c ++ allErrs d).

(** ** The separator writer and the cluster scope *)

(** [separatorWriterWrapper.SetReady]. *)
Definition SetReady (state : bool) (ws : Writers) : Writers :=
  mkWriters (Written ws) state (buffer ws).

(** A cluster of the registry, with the one field the file reads. *)
Record ClusterObject := mkClusterObject { ObjectMeta_Name : string }.

(** [LoadRegisteredClusters]; its argument is what
    [clientSet.ClusterV1alpha1().Clusters().List] returns. *)
Definition LoadRegisteredClusters (clusterList : result (list ClusterObject) error)
  : result (list string) error :=
  match clusterList with
  | Error err =>
      Error ("failed to list all member clusters in control plane, err: " +:+ err)
  | Ok items => Ok (map ObjectMeta_Name items)
  end.

Definition with_TargetMemberClusters (clusters : list string)
    (g : CommandGetOptions) : CommandGetOptions :=
  mkOptions (OperationScope_ g) clusters (ToPrinter g) (IsHumanReadablePrinter g)
            (Watch g) (WatchOnly g) (OutputWatchEvents g) (Namespace g)
            (AllNamespaces g) (NoHeaders g) (IgnoreNotFound g).

(** [HandleClusterScopeFlags].  [Clusters] is [g.Clusters], the value of
    [--clusters]; the result is [g] as the method leaves it, and the
    error it returns. *)
Definition HandleClusterScopeFlags (Clusters : list string)
    (clusterList : result (list ClusterObject) error) (g : CommandGetOptions)
  : CommandGetOptions * option error :=
  match OperationScope_ g with
  | KarmadaControlPlane => (with_TargetMemberClusters [] g, None)
  | Members | All =>
      if (length Clusters =? 0)%nat then
        match LoadRegisteredClusters clusterList with
        | Ok clusters => (with_TargetMemberClusters clusters g, None)
        | Error err => (with_TargetMemberClusters [] g, Some err)
        end
      else (with_TargetMemberClusters Clusters g, None)
  end.

End Get.

Arguments Run {_} printGeneric g f args sched.
Arguments getObjInfo {_} printGeneric g f cluster isControlPlane c args.
Arguments runTask {_} printGeneric g memberFactory cluster missed older c args.
Arguments runTasks {_} printGeneric g tasks older c args.
Arguments share {_} printGeneric g f cluster isControlPlane args.

(** ** The json/yaml path

    [Run] and [getObjInfo] take the function of the json/yaml path as a
    parameter, so that what is proved of watching and listing holds
    whatever it does.  This is the function of the file. *)

Section Generic.
Context `{Deps}.

(** [extractInfosFromResource]: the infos and the error it returns, with
    the final content of [*errs].  When everything is ignored as not
    found, the error it returns can be nil, and [printGeneric] goes on
    without infos. *)
Definition extractInfosFromResource (g : CommandGetOptions) (r : Result)
    (errs : list error) : result (list Info) error * list error :=
  let singleItemImplied := r_SingleItemImplied r in
  let after infos errs :=
    if (length infos =? 0)%nat && IgnoreNotFound g
    then (match Reduce errs with
          | Some err => Error err
          | None => Ok []
          end, errs)
    else (Ok infos, errs) in
  match r_Infos r with
  | Error err =>
      if singleItemImplied then (Error err, errs)
      else after (r_Partial r) (errs ++ [err])
  | Ok infos => after infos errs
  end.

(** The type assertion of an item to [Unstructured], which panics on
    an item of another type. *)
Definition assertUnstructured (item : RuntimeObject) : outcome Unstructured :=
  match asUnstructured item with
  | Some u => Done u
  | None => Panic "interface conversion: runtime.Object is not *unstructured.Unstructured"
  end.

(** [printer.PrintObj(obj, g.Out)], the error appended to [errs], and
    the [return] that follows. *)
Definition printAndReduce (printer : ResourcePrinterFunc) (obj : RuntimeObject)
    (errs : list error) : M (option error) :=
  match PrintObj printer obj with
  | Error err => ret (Reduce (errs ++ [err]))
  | Ok text => modify (write_Out text);; ret (Reduce errs)
  end.

(** [printGeneric]; its result is the error it returns. *)
Definition printGeneric (g : CommandGetOptions) (r : Result) : M (option error) :=
  let singleItemImplied := r_SingleItemImplied r in
  match extractInfosFromResource g r [] with
  | (Error err, _) => ret (Some err)
  | (Ok infos, errs) =>
      match ToPrinter g None false false false with
      | Error err => ret (Some err)
      | Ok printer =>
          let obj :=
            match singleItemImplied, infos with
            | true, [info] => Ok (Object info)
            | _, _ => ComposeList (map Object infos)
            end in
          match obj with
          | Error err => ret (Some err)
          | Ok obj =>
              if IsListType obj then
                match ExtractListErr obj with
                | Some err => ret (Some err)
                | None =>
                    do items <- lift (mapO assertUnstructured (ExtractList obj));
                    printAndReduce printer (DisplayList obj items) errs
                end
              else printAndReduce printer obj errs
          end
      end
  end.

End Generic.

(** ** A concrete instance, for running the code on examples *)

Module Sample.

(** A stand-in for the apimachinery: a document carries its labels and
    the table it converts to; raw bytes decode by a toy codec in which
    the empty input is an error (as it is for JSON), the text
    [labels:karmada.io/managed=true] a document with that one label, and
    anything else a document without labels. *)
Record doc := mkDoc {
  doc_labels : gmap string string;
  doc_table : result Table error }.

Inductive object :=
| Doc (d : doc)
| ListOf (resourceVersion : result string error) (items : list doc)
| Typed.

Definition decode (raw : string) : result doc error :=
  if String.eqb raw "" then Error "unexpected end of JSON input"
  else if String.eqb raw "labels:karmada.io/managed=true"
  then Ok (mkDoc {[ "karmada.io/managed" := "true" ]} (Error "not a table"))
  else Ok (mkDoc ∅ (Error "not a table")).

Definition lessR {A} (less : A -> A -> bool) : relation A :=
  fun a b => less a b = true.

#[global] Instance lessR_dec {A} (less : A -> A -> bool) a b :
  Decision (lessR less a b).
Proof. unfold lessR. apply _. Defined.

#[global, refine] Instance deps : Deps := {|
  RuntimeObject := object;
  Unstructured := doc;
  asUnstructured := fun o => match o with Doc d => Some d | _ => None end;
  FromUnstructured := doc_table;
  UnmarshalJSON := decode;
  GetLabels := doc_labels;
  IsListType := fun o => match o with ListOf _ _ => true | _ => false end;
  ExtractList := fun o => match o with ListOf _ items => map Doc items | _ => [] end;
  ResourceVersion := fun o => match o with
                              | ListOf rv _ => rv
                              | _ => Error "no resourceVersion"
                              end;
  ToUnstructured := fun _ => None;
  ExtractListErr := fun _ => None;
  ComposeList := fun objs =>
    Ok (ListOf (Ok "") (omap (fun o => match o with Doc d => Some d | _ => None end) objs));
  DisplayList := fun obj items =>
    ListOf (match obj with ListOf rv _ => rv | _ => Ok "" end) items;
  PrintObj := fun _ obj =>
    Ok (match obj with
        | ListOf _ [] => "List of 0"
        | ListOf _ [_] => "List of 1"
        | ListOf _ _ => "List of n"
        | Doc _ => "Item"
        | Typed => "Typed"
        end +:+ LF);
  ManagedByKarmadaLabel := "karmada.io/managed";
  ManagedByKarmadaLabelValue := "true";
  sort_Slice := fun A less => merge_sort (lessR less)
|}.
Proof. intros A less l. apply merge_sort_Permutation. Defined.

(** A printer of the wide view, which shows every column whatever its
    priority: one line of column names, each with its priority, when
    the table has column definitions, then one line per row; rows are
    left out when the printer was built with the [outputObjects] pointer
    and the cell holds [false]. *)
Definition digit (z : Z) : string :=
  if (z =? 0)%Z then "0" else if (z =? 1)%Z then "1" else "n".

Definition showColumn (c : TableColumnDefinition) : string :=
  Name c +:+ ":" +:+ digit (Priority c).

Definition showCell (c : Cell) : string :=
  match cellText c with Some s => s | None => "?" end.

Fixpoint unwords (l : list string) : string :=
  match l with
  | [] => ""
  | [x] => x
  | x :: l' => x +:+ " " +:+ unwords l'
  end.

Definition showRow (r : TableRow) : string := unwords (map showCell (Cells r)) +:+ LF.

Fixpoint concat_strings (l : list string) : string :=
  match l with
  | [] => ""
  | x :: l' => x +:+ concat_strings l'
  end.

Definition show (withPointer : bool) : ResourcePrinterFunc :=
  fun output t =>
    Ok ((match ColumnDefinitions t with
         | [] => ""
         | cds => unwords (map showColumn cds) +:+ LF
         end)
        +:+ (if withPointer && negb output then ""
             else concat_strings (map showRow (Rows t)))).

(** A printer of the default view: the table printer of cli-runtime
    passes over a column whose priority is not 0, in the line of names
    and in every row.  (A table without column definitions is laid out
    by the columns of the table printed before it, which this stand-in
    does not keep: its cells are shown as they are.) *)
Fixpoint inDefaultView {A} (cds : list TableColumnDefinition) (l : list A) : list A :=
  match cds, l with
  | [], _ => l
  | _, [] => []
  | cd :: cds', a :: l' =>
      if (Priority cd =? 0)%Z then a :: inDefaultView cds' l'
      else inDefaultView cds' l'
  end.

Definition showDefault (withPointer : bool) : ResourcePrinterFunc :=
  fun output t =>
    let cds := ColumnDefinitions t in
    Ok ((match cds with
         | [] => ""
         | _ => unwords (map Name (inDefaultView cds cds)) +:+ LF
         end)
        +:+ (if withPointer && negb output then ""
             else concat_strings
                    (map (fun r => unwords (map showCell (inDefaultView cds (Cells r)))
                                   +:+ LF) (Rows t)))).

Definition options (scope : OperationScope) (clusters : list string) (watching : bool)
  : CommandGetOptions :=
  mkOptions scope clusters (fun _ withPointer _ _ => Ok (show withPointer))
            true watching false false "default" false false false.

(** The same options with the printer of the default view, listing. *)
Definition narrow (scope : OperationScope) (clusters : list string)
  : CommandGetOptions :=
  mkOptions scope clusters (fun _ withPointer _ _ => Ok (showDefault withPointer))
            true false false false "default" false false false.

Definition noGeneric : CommandGetOptions -> Result -> M (option error) :=
  fun _ _ => ret None.

Definition podsMapping : RESTMapping :=
  mkMapping (mkGVR "" "v1" "pods") (mkGVK "" "v1" "Pod") RESTScopeNameNamespace.
Definition servicesMapping : RESTMapping :=
  mkMapping (mkGVR "" "v1" "services") (mkGVK "" "v1" "Service") RESTScopeNameNamespace.

Definition nameColumns : list TableColumnDefinition :=
  [ mkColumn "NAME" "string" "name" 0; mkColumn "AGE" "string" "" 0 ].

(** One server-side table with one row. *)
Definition item (mapping : RESTMapping) (name raw : string) : Info :=
  mkInfo mapping
    (Doc (mkDoc ∅ (Ok (mkTable nameColumns
                         [mkRow [CellString name; CellString "5d"] raw])))).

(** The records are of one resource type: the query has one source. *)
Definition oneSource (infos : list Info) : bool :=
  match infos with
  | [] => true
  | i :: rest =>
      forallb (fun j => bool_decide (Resource (Mapping j) = Resource (Mapping i))) rest
  end.

Definition docsOf (infos : list Info) : list doc :=
  omap (fun i => match Object i with Doc d => Some d | _ => None end) infos.

(** The result of a query, as the client library hands it on: the
    object of a single record is the record's own, several records make
    a list of their documents; a stream that is opened is closed at
    once; and the watch of a query with several sources is refused. *)
Definition listing (infos : list Info) : Result :=
  mkResult None (Ok infos)
    (match infos with
     | [i] => Ok (Object i)
     | _ => Ok (ListOf (Ok "100") (docsOf infos))
     end)
    (fun _ => if oneSource infos then Ok []
              else Error "you may only watch a single resource or type of resource at a time")
    [] false.

Definition serving (r : Result) : CmdFactory :=
  mkFactory None (fun _ => None) (fun _ _ => r).

Definition unreachable : CmdFactory :=
  mkFactory None (fun _ => Some "Unauthorized") (fun _ _ => listing []).


Fixpoint factoryOf (members : list (string * CmdFactory)) (cluster : string)
  : result CmdFactory error :=
  match members with
  | [] => Error ("cluster " +:+ cluster +:+ " not found")
  | (name, f) :: rest =>
      if String.eqb name cluster then Ok f else factoryOf rest cluster
  end.

Definition fleet (controlPlane : CmdFactory) (members : list (string * CmdFactory))
  : UtilFactory :=
  mkUtilFactory controlPlane (factoryOf members).

Definition managed : string := "labels:karmada.io/managed=true".

(** The control plane alone, holding one pod without labels. *)
Definition karmadaOnly : UtilFactory :=
  fleet (serving (listing [item podsMapping "web" "{}"])) [].

(** One member holding a managed pod and a service. *)
Definition podsAndServices : UtilFactory :=
  fleet (serving (listing []))
        [("member1", serving (listing [item podsMapping "web" managed;
                                       item servicesMapping "db" "{}"]))].

(** The same member holding the service only. *)
Definition servicesOnly : UtilFactory :=
  fleet (serving (listing []))
        [("member1", serving (listing [item servicesMapping "db" "{}"]))].




(** One registered member, holding a pod. *)
Definition oneMember : UtilFactory :=
  fleet (serving (listing [item podsMapping "cp" "{}"]))
        [("member1", serving (listing [item podsMapping "web" managed]))].

(** One member that cannot be reached. *)
Definition oneUnreachable : UtilFactory :=
  fleet (serving (listing [])) [("member1", unreachable)].

(** The cells of the rows of a reconstructed table. *)
Definition cellsOf (r : outcome Table * World) : list (list Cell) :=
  match r.1 with
  | Done t => map Cells (Rows t)
  | _ => []
  end.

Definition header (adoptionPriority : string) : string :=
  "NAME:0 CLUSTER:0 AGE:0 ADOPTION:" +:+ adoptionPriority +:+ LF.

(** The options of [-o json]: no watch, and a printer that is not the
    human-readable one. *)
Definition generic (scope : OperationScope) (clusters : list string)
  : CommandGetOptions :=
  mkOptions scope clusters (fun _ withPointer _ _ => Ok (show withPointer))
            false false false false "default" false false false.

(** Records of two members: a managed pod, a pod and a service. *)
Definition webOfMember1 : Obj := mkObj "member1" false (item podsMapping "web" managed).
Definition apiOfMember2 : Obj := mkObj "member2" false (item podsMapping "api" "{}").
Definition dbOfMember2 : Obj := mkObj "member2" false (item servicesMapping "db" "{}").

(** The server-side table of [webOfMember1]. *)
Definition webTable : Table :=
  mkTable nameColumns [mkRow [CellString "web"; CellString "5d"] managed].

(** Two healthy members, a pod each. *)
Definition twoMembers : list (string * CmdFactory) :=
  [("member1", serving (listing [item podsMapping "web" managed]));
   ("member2", serving (listing [item podsMapping "api" "{}"]))].




(** Two members, neither of which can be reached. *)
Definition twoUnreachable : UtilFactory :=
  fleet (serving (listing [])) [("member1", unreachable); ("member2", unreachable)].

Definition twoHandles : list WatchObj :=
  [mkWatchObj "member1" (listing [item podsMapping "web" managed]);
   mkWatchObj "member2" (listing [item podsMapping "api" "{}"])].

End Sample.

(** ** What a reconstructed row looks like *)

Section Shape.
Context `{Deps}.

(** The adoption cell of list mode and that of watch mode, for a row
    whose document is [u]. *)
Definition listAdoptionCell (o : Obj) (u : Unstructured) : Cell :=
  CellAdoption (if IsControlPlane o then notApplicable
                else if managedLabel u then managedByKarmada
                else notManagedByKaramda).

Definition watchAdoptionCell (u : Unstructured) : Cell :=
  CellString (if managedLabel u then "Y" else "N").

(** The cells put before the name: the event cell, under
    [--output-watch-events]. *)
Definition eventCells (g : CommandGetOptions) (event : string) : list Cell :=
  if OutputWatchEvents g then [CellString event] else [].

(** [row'] is [row] rebuilt: the name, the cluster cell, the other
    original cells and, when the row's document unmarshals, the adoption
    cell; behind [front]. *)
Definition rowShape (front : list Cell) (cluster : string)
    (adoptionCell : Unstructured -> Cell) (row row' : TableRow) : Prop :=
  Raw row' = Raw row /\
  exists c0 rest, Cells row = c0 :: rest /\
    match UnmarshalJSON (Raw row) with
    | Ok u =>
        Cells row' = front ++ [c0; CellString cluster] ++ rest ++ [adoptionCell u] /\
        length (Cells row') = length front + length (Cells row) + 2
    | Error _ =>
        Cells row' = front ++ [c0; CellString cluster] ++ rest /\
        length (Cells row') = length front + length (Cells row) + 1
    end.

(** [row] is a row of the table that the object of [o] converts to. *)
Definition rowOf (o : Obj) (row : TableRow) : Prop :=
  exists unstr table,
    asUnstructured (Object (Info_ o)) = Some unstr /\
    FromUnstructured unstr = Ok table /\
    row ∈ Rows table.

Definition listRow (objs : list Obj) (row' : TableRow) : Prop :=
  exists o row, o ∈ objs /\ rowOf o row /\
    rowShape [] (Cluster o) (listAdoptionCell o) row row'.

(** The resource version a watch goroutine starts from. *)
Definition startVersion (obj : RuntimeObject) : result string error :=
  if IsListType obj then ResourceVersion obj else Ok "0".


(** The total length of the chunks written. *)
Definition bytes (chunks : list string) : nat :=
  foldr (fun p n => String.length p + n) 0 chunks.

(** An error that [g.ToPrinter] returns for some mapping. *)
Definition printerError (g : CommandGetOptions) (e : error) : Prop :=
  exists mapping withNamespace withKind,
    ToPrinter g (Some mapping) false withNamespace withKind = Error e.




(** The diagnostic of an empty listing. *)
Definition noResources (g : CommandGetOptions) (objs : list Obj) : string :=
  if negb (ContainKarmadaScope (OperationScope_ g))
     && bool_decide (TargetMemberClusters g = [])
  then "No member Clusters found in Karmada control plane" +:+ LF
  else if negb (AllNamespaces g) && forallb (fun o => Namespaced (Info_ o)) objs
  then "No resources found in " +:+ Namespace g +:+ " namespace." +:+ LF
  else "No resources found" +:+ LF.

(** What the loop of [printObjs] leaves behind, started on [objs] with
    the set [errs], the writers [ws], the flag [allNs] and the list
    [allErrs] in the world [w]: nothing on [ErrOut]; the error list
    grown by printer errors, each new to [errs] and recorded once, and,
    when the loop was left by a [return], by the one error that made it
    return; at the end of the loop, the flag and the bytes written. *)
Definition loopPost (g : CommandGetOptions) (objs : list Obj) (errs : gset string)
    (ws : Writers) (allNs : bool) (allErrs : list error) (w : World)
    (r : loopExit) (w' : World) : Prop :=
  ErrOut w' = ErrOut w /\
  exists pe, NoDup pe /\ (forall e, e ∈ pe -> (e ∉ errs) /\ printerError g e) /\
    match r with
    | Returned allErrs' => exists e, allErrs' = allErrs ++ pe ++ [e]
    | Finished ws' allNs' allErrs' =>
        allErrs' = allErrs ++ pe /\
        allNs' = allNs && forallb (fun o => Namespaced (Info_ o)) objs /\
        exists chunks, Out w' = Out w ++ chunks /\
          Written ws' = Written ws + bytes chunks /\
          Forall (fun p => p <> "") chunks
    end.









(** The task of [cluster] ends before it has a watch handle to hand
    over: no REST client, a failed probe, or a failed query. *)
Definition producesNoHandle (g : CommandGetOptions) (args : list string)
    (cluster : string) (isControlPlane : bool) (f : CmdFactory) : Prop :=
  is_Some (RESTClient f) \/
  (isControlPlane = false /\ is_Some (DoRaw f (proxyURL cluster +:+ "api"))) \/
  is_Some (r_Err (Do f g args)).



(** Writes through the separator writer, one after the other. *)
Fixpoint writeAll (ps : list string) (ws : Writers) : M Writers :=
  match ps with
  | [] => ret ws
  | p :: ps' => do ws <- separatorWrite p ws; writeAll ps' ws
  end.

(** The bytes of a list of chunks, end to end. *)
Fixpoint cat (chunks : list string) : string :=
  match chunks with
  | [] => ""
  | p :: chunks' => p +:+ cat chunks'
  end.

(** The table that the object of a record converts to, if it does. *)
Definition tableOf (o : Obj) : option Table :=
  match asUnstructured (Object (Info_ o)) with
  | Some unstr =>
      match FromUnstructured unstr with
      | Ok table => Some table
      | Error _ => None
      end
  | None => None
  end.

(** The raw documents of the rows of a record, in the order of its
    table. *)
Definition rawsOf (o : Obj) : list string :=
  match tableOf o with
  | Some table => map Raw (Rows table)
  | None => []
  end.

(** A table can be rebuilt: each of its rows has a first cell. *)
Definition rebuildable (table : Table) : Prop :=
  Forall (fun row => Cells row <> []) (Rows table).

(** The row's document unmarshals. *)
Definition unmarshals (row : TableRow) : Prop :=
  match UnmarshalJSON (Raw row) with
  | Ok _ => True
  | Error _ => False
  end.

(** The records of [c] belong to the targets asked for: the control
    plane under its fixed name, when it is in scope, or one of the
    target member clusters. *)
Definition fromTargets (g : CommandGetOptions) (o : Obj) : Prop :=
  if IsControlPlane o
  then Cluster o = "Karmada" /\ ContainKarmadaScope (OperationScope_ g) = true
  else Cluster o ∈ TargetMemberClusters g.

(** The table printer of cli-runtime leaves a column out of the default
    view when its priority is not 0; the wide view shows every column. *)
Definition hiddenByDefault (c : TableColumnDefinition) : Prop :=
  Priority c <> 0%Z.

(** The adoption column of a table rendered under [m] when
    [podColumns[1]] is [c1]. *)
Definition adoptionColumn (m : RESTMapping) (c1 : TableColumnDefinition)
  : TableColumnDefinition :=
  mkColumn (Name c1) (Type_ c1) (Format c1)
    (if String.eqb (gvr_Resource (Resource m)) "pods" then 1 else Priority c1).

(** Between [w] and [w'] nothing was printed and no watch was opened. *)
Definition nothingShown (w w' : World) : Prop :=
  Out w' = Out w /\ ErrOut w' = ErrOut w /\ Subscribed w' = Subscribed w.

End Shape.

(** * Properties *)

Section Properties.
Context `{Deps}.
Variable printGeneric : CommandGetOptions -> Result -> M (option error).

Lemma mapO_Done {A B} (f : A -> outcome B) l l' :
  mapO f l = Done l' -> Forall2 (fun a b => f a = Done b) l l'.
Proof.
  revert l'. induction l as [|a l IH]; simpl; intros l' Hm.
  - inversion Hm. constructor.
  - destruct (f a) as [b| | |] eqn:Hfa; try discriminate.
    destruct (mapO f l) as [bs| | |] eqn:Hl; try discriminate.
    inversion Hm; subst. constructor; auto.
Qed.

Lemma reconstructionRow_row_shape o row row' :
  reconstructionRow_row o row = Done row' ->
  rowShape [] (Cluster o) (listAdoptionCell o) row row'.
Proof.
  unfold reconstructionRow_row, rowShape, listAdoptionCell.
  destruct (Cells row) as [|c0 rest] eqn:Hc; [discriminate|].
  destruct (UnmarshalJSON (Raw row)) as [u|e] eqn:Hu.
  - destruct (IsControlPlane o); [|destruct (managedLabel u)];
      intros [= <-]; simpl; (split; [reflexivity|]);
      exists c0, rest; (split; [reflexivity|]); rewrite ?Hu;
      (split; [reflexivity|]); rewrite length_app; simpl; lia.
  - intros [= <-]; simpl. split; [reflexivity|].
    exists c0, rest. split; [reflexivity|]. rewrite ?Hu.
    split; [reflexivity|]. lia.
Qed.

Lemma reconstructObj_row_shape g cluster event row row' :
  reconstructObj_row g cluster event row = Done row' ->
  rowShape (eventCells g event) cluster watchAdoptionCell row row'.
Proof.
  unfold reconstructObj_row, rowShape, watchAdoptionCell, eventCells.
  destruct (Cells row) as [|c0 rest] eqn:Hc; [discriminate|].
  destruct (UnmarshalJSON (Raw row)) as [u|e] eqn:Hu.
  - destruct (managedLabel u), (OutputWatchEvents g);
      intros [= <-]; simpl; (split; [reflexivity|]);
      exists c0, rest; (split; [reflexivity|]); rewrite ?Hu;
      (split; [reflexivity|]); rewrite length_app; simpl; lia.
  - destruct (OutputWatchEvents g);
      intros [= <-]; simpl; (split; [reflexivity|]);
      exists c0, rest; (split; [reflexivity|]); rewrite ?Hu;
      (split; [reflexivity|]); lia.
Qed.

Lemma listRow_mono o objs row' : listRow objs row' -> listRow (o :: objs) row'.
Proof.
  intros (o' & row & Ho & Hr & Hs). exists o', row.
  split; [right; exact Ho | auto].
Qed.

Lemma reconstructionRow_loop_rows objs : forall table acc m rows m' t,
  reconstructionRow_loop objs table acc m = Done (rows, m', t) ->
  exists new, rows = acc ++ new /\ Forall (listRow objs) new.
Proof.
  induction objs as [|o objs IH]; simpl; intros table acc m rows m' t Hr.
  - inversion Hr; subst. exists []. rewrite app_nil_r. split; [reflexivity|constructor].
  - destruct (asUnstructured (Object (Info_ o))) as [unstr|] eqn:Hu; [|discriminate].
    destruct (FromUnstructured unstr) as [tbl|e] eqn:Hf; [|discriminate].
    destruct (mapO (reconstructionRow_row o) (Rows tbl)) as [rs| | |] eqn:Hm;
      try discriminate.
    apply IH in Hr as (new & -> & Hnew).
    exists (rs ++ new). split; [by rewrite app_assoc|].
    apply Forall_app. split.
    + apply mapO_Done in Hm.
      apply Forall_forall. intros row' Hin.
      apply list_elem_of_lookup in Hin as [i Hi].
      destruct (Forall2_lookup_r _ _ _ _ _ Hm Hi) as (row & Hrow & Hdone).
      exists o, row. split; [left|]. split.
      * exists unstr, tbl. split; [exact Hu|]. split; [exact Hf|].
        apply list_elem_of_lookup. eauto.
      * by apply reconstructionRow_row_shape.
    + eapply Forall_impl; [exact Hnew|]. intros; by apply listRow_mono.
Qed.

Lemma setNoAdoption_outcome mapping w :
  (exists w', setNoAdoption mapping w = (Done tt, w') /\
              Out w' = Out w /\ ErrOut w' = ErrOut w /\
              Subscribed w' = Subscribed w /\ outputObjects w' = outputObjects w) \/
  (exists msg, setNoAdoption mapping w = (Panic msg, w)).
Proof.
  unfold setNoAdoption. destruct mapping as [m|]; [|left; by exists w].
  destruct (String.eqb _ _); [|left; by exists w].
  unfold bind, get_world, modify, panic; simpl.
  destruct (podColumns w !! printColumnClusterNum); [left|right]; eauto.
  eexists. split; [reflexivity|]. by repeat split.
Qed.

Lemma setColumnDefinition_outcome g table w :
  (exists t, setColumnDefinition g table w = (Done t, w) /\ Rows t = Rows table) \/
  (exists msg, setColumnDefinition g table w = (Panic msg, w)).
Proof.
  unfold setColumnDefinition. destruct (ColumnDefinitions table); [left; by exists table|].
  unfold bind, get_world, panic, ret; simpl.
  destruct (podColumns w); [right|left]; eauto.
Qed.

Lemma reconstructObj_rows g obj mapping cluster event w t w' :
  reconstructObj g obj mapping cluster event w = (Done t, w') ->
  exists unstr table,
    asUnstructured obj = Some unstr /\ FromUnstructured unstr = Ok table /\
    Forall2 (rowShape (eventCells g event) cluster watchAdoptionCell)
            (Rows table) (Rows t).
Proof.
  unfold reconstructObj.
  destruct (asUnstructured obj) as [unstr|] eqn:Hu; [|discriminate].
  unfold bind at 1, lift, of_result.
  destruct (FromUnstructured unstr) as [table|e] eqn:Hf; [|discriminate].
  unfold bind at 1.
  destruct (mapO _ (Rows table)) as [rows| | |] eqn:Hm; try discriminate.
  unfold bind.
  destruct (setNoAdoption_outcome mapping w) as [(w1 & -> & _)|(msg & ->)];
    [|discriminate].
  destruct (setColumnDefinition_outcome g (mkTable (ColumnDefinitions table) rows) w1)
    as [(t1 & -> & Hrows)|(msg & ->)]; [|discriminate].
  intros [= <- <-]. exists unstr, table. split; [reflexivity|]. split; [exact Hf|].
  rewrite Hrows. simpl. apply mapO_Done in Hm.
  eapply Forall2_impl; [exact Hm|]. intros; by apply reconstructObj_row_shape.
Qed.

(** C2 (amended).  Every row that list-mode reconstruction returns comes
    from a row of one of the objects, and every row that watch-mode
    reconstruction returns from the row at the same place of the
    object's table: the name, the cluster cell at position 1, the other
    original cells and the adoption cell last, that is two cells more
    than the original row, behind the event cell under
    [--output-watch-events] (three cells more) -- provided the row's
    document unmarshals; a row whose document does not unmarshal gets no
    adoption cell. *)
Theorem reconstructed_rows_shape g objs table0 rows m t obj unstr table
    mapping cluster event w tw w' :
  reconstructionRow objs table0 = Done (rows, m, t) ->
  asUnstructured obj = Some unstr ->
  FromUnstructured unstr = Ok table ->
  reconstructObj g obj mapping cluster event w = (Done tw, w') ->
  Forall (listRow objs) rows /\
  Forall2 (rowShape (eventCells g event) cluster watchAdoptionCell)
          (Rows table) (Rows tw).
Proof.
  intros Hlist Hu Hf Hwatch. split.
  - apply reconstructionRow_loop_rows in Hlist as (new & -> & Hnew). exact Hnew.
  - apply reconstructObj_rows in Hwatch as (unstr' & table' & Hu' & Hf' & Hrows).
    rewrite Hu in Hu'. injection Hu' as <-.
    rewrite Hf in Hf'. injection Hf' as <-. exact Hrows.
Qed.

(** ** Watch mode *)

Lemma differsFromFirst_true gvk (objs : list Obj) :
  differsFromFirst gvk objs = true <->
  exists o, o ∈ objs /\ GroupVersionKind_ (Mapping (Info_ o)) <> gvk.
Proof.
  induction objs as [|o objs IH]; simpl.
  - split; [discriminate|]. intros (o & Ho & _). by apply elem_of_nil in Ho.
  - case_bool_decide as Hgvk.
    + rewrite IH. split.
      * intros (o' & Ho' & Hne). exists o'. split; [by right|exact Hne].
      * intros (o' & Ho' & Hne). apply elem_of_cons in Ho' as [->|Ho'].
        -- contradiction.
        -- eauto.
    + split; [|reflexivity]. intros _. exists o. split; [by left|exact Hgvk].
Qed.

(** [multipleGVKsRequested] holds exactly of the lists in which two
    objects differ in group, version or kind. *)
Lemma multipleGVKsRequested_true (objs : list Obj) :
  multipleGVKsRequested objs = true <->
  exists o1 o2, o1 ∈ objs /\ o2 ∈ objs /\
    GroupVersionKind_ (Mapping (Info_ o1)) <> GroupVersionKind_ (Mapping (Info_ o2)).
Proof.
  destruct objs as [|o0 [|o' objs]].
  - simpl. split; [discriminate|]. intros (o1 & _ & Ho1 & _). by apply elem_of_nil in Ho1.
  - simpl. split; [discriminate|].
    intros (o1 & o2 & Ho1 & Ho2 & Hne).
    apply list_elem_of_singleton in Ho1, Ho2. subst. contradiction.
  - change (multipleGVKsRequested (o0 :: o' :: objs))
      with (differsFromFirst (GroupVersionKind_ (Mapping (Info_ o0))) (o0 :: o' :: objs)).
    rewrite differsFromFirst_true. split.
    + intros (o & Ho & Hne). exists o, o0. split; [exact Ho|]. split; [by left|exact Hne].
    + intros (o1 & o2 & Ho1 & Ho2 & Hne).
      destruct (decide (GroupVersionKind_ (Mapping (Info_ o1))
                        = GroupVersionKind_ (Mapping (Info_ o0)))) as [Heq|Hd].
      * exists o2. split; [exact Ho2|]. rewrite <- Heq. congruence.
      * exists o1. split; [exact Ho1|exact Hd].
Qed.

Lemma mapO_not_blocked {A B} (f : A -> outcome B) l :
  (forall a, f a <> Blocked) -> mapO f l <> Blocked.
Proof.
  intros Hf. induction l as [|a l IH]; simpl; [discriminate|].
  specialize (Hf a). destruct (f a); try congruence.
  destruct (mapO f l); congruence.
Qed.

Lemma reconstructObj_not_blocked g obj mapping cluster event w :
  fst (reconstructObj g obj mapping cluster event w) <> Blocked.
Proof.
  unfold reconstructObj. destruct (asUnstructured obj) as [unstr|]; [|discriminate].
  unfold bind at 1, lift, of_result.
  destruct (FromUnstructured unstr) as [table|e]; [|discriminate].
  unfold bind at 1.
  destruct (mapO _ (Rows table)) as [rows| | |] eqn:Hm; try discriminate.
  - unfold bind.
    destruct (setNoAdoption_outcome mapping w) as [(w1 & -> & _)|(msg & ->)];
      [|discriminate].
    destruct (setColumnDefinition_outcome g (mkTable (ColumnDefinitions table) rows) w1)
      as [(t1 & -> & _)|(msg & ->)]; discriminate.
  - exfalso. revert Hm. apply mapO_not_blocked. intros row.
    unfold reconstructObj_row. destruct (Cells row); [discriminate|].
    destruct (UnmarshalJSON _); [destruct (managedLabel _)|]; discriminate.
Qed.

Lemma onEvent_not_blocked g mapping printer cluster e w :
  fst (onEvent g mapping printer cluster e w) <> Blocked.
Proof.
  unfold onEvent, bind at 1.
  pose proof (reconstructObj_not_blocked g (ev_Object e) mapping cluster (ev_Type e) w) as Hr.
  destruct (reconstructObj _ _ _ _ _ w) as [[objrow| | |] w1]; simpl in *;
    try congruence; try discriminate.
  destruct (ToUnstructured _); [discriminate|].
  unfold bind, get_world. destruct (printer _ _); [|discriminate].
  unfold flushOut. destruct (_ =? _)%nat; discriminate.
Qed.

Lemma UntilWithoutRetry_not_blocked cond events :
  (forall e w, fst (cond e w) <> Blocked) ->
  forall w, fst (UntilWithoutRetry cond events w) <> Blocked.
Proof.
  intros Hc. induction events as [|e events IH]; simpl; intros w; [discriminate|].
  unfold bind. specialize (Hc e w).
  destruct (cond e w) as [[[]| | |] w1]; simpl in *;
    [apply IH | discriminate | discriminate | congruence].
Qed.

(** The goroutine, step by step. *)
Lemma watchGoroutine_eq g mapping printer watchObj w :
  watchGoroutine g mapping printer watchObj w =
  match r_Object (WatchObj_r watchObj) with
  | Error err => (Panic err, w)
  | Ok obj =>
      match startVersion obj with
      | Error err => (Panic err, w)
      | Ok rv =>
          match r_Watch (WatchObj_r watchObj) rv with
          | Error err => (Panic err, set_outputObjects (IsListType obj) w)
          | Ok events =>
              discard (UntilWithoutRetry
                         (onEvent g mapping printer (WatchObj_Cluster watchObj)) events)
                (subscribe (WatchObj_Cluster watchObj)
                   (set_outputObjects (IsListType obj) w))
          end
      end
  end.
Proof.
  unfold watchGoroutine, startVersion.
  destruct (r_Object _) as [obj|err]; [|reflexivity].
  unfold bind at 1. destruct (IsListType obj).
  - destruct (ResourceVersion obj) as [rv|err]; [|reflexivity].
    unfold bind at 1, modify, ret.
    destruct (r_Watch _ rv) as [events|err]; reflexivity.
  - unfold bind at 1, modify, ret.
    destruct (r_Watch _ "0") as [events|err]; reflexivity.
Qed.

(** A watch goroutine ends in one of two ways: it returns, or it
    panics. *)
Lemma watchGoroutine_outcome g mapping printer watchObj w :
  (exists w', watchGoroutine g mapping printer watchObj w = (Done tt, w')) \/
  (exists msg w', watchGoroutine g mapping printer watchObj w = (Panic msg, w')).
Proof.
  rewrite watchGoroutine_eq.
  destruct (r_Object _) as [obj|err]; [|right; by eexists _, _].
  destruct (startVersion obj) as [rv|err]; [|right; by eexists _, _].
  destruct (r_Watch _ rv) as [events|err]; [|right; by eexists _, _].
  unfold discard.
  match goal with |- context [UntilWithoutRetry ?c ?ev ?w0] =>
    pose proof (UntilWithoutRetry_not_blocked c ev
                  (onEvent_not_blocked g mapping printer _) w0) as Hnb;
    destruct (UntilWithoutRetry c ev w0) as [[[]| | |] w1] end;
    simpl in *; try congruence; eauto.
Qed.









(** ** List mode *)

Lemma length_zero_eqb (p : string) :
  (String.length p =? 0)%nat = bool_decide (p = "").
Proof. destruct p; reflexivity. Qed.

Lemma Flush_spec ws w :
  exists ws' w' chunks,
    Flush ws w = (Done ws', w') /\
    Out w' = Out w ++ chunks /\ ErrOut w' = ErrOut w /\
    Written ws' = Written ws + bytes chunks /\
    Forall (fun p => p <> "") chunks.
Proof.
  unfold Flush. rewrite length_zero_eqb. case_bool_decide as Hb.
  - exists ws, w, []. simpl. rewrite app_nil_r. repeat split; auto.
  - unfold separatorWrite. rewrite length_zero_eqb.
    rewrite (bool_decide_eq_false_2 _ Hb). simpl.
    destruct (Ready ws).
    + unfold bind, trackingWrite, bind, modify, ret; simpl.
      eexists _, _, [LF; buffer ws]. split; [reflexivity|]. simpl.
      rewrite <- app_assoc. simpl. split; [reflexivity|]. split; [reflexivity|].
      split; [lia|]. repeat constructor; auto.
    + unfold bind, trackingWrite, bind, modify, ret; simpl.
      eexists _, _, [buffer ws]. split; [reflexivity|]. simpl.
      split; [reflexivity|]. split; [reflexivity|]. split; [lia|].
      repeat constructor; auto.
Qed.

Lemma printGroup_spec g printer sameKind ws allErrs w r w' :
  printGroup g printer sameKind ws allErrs w = (Done r, w') ->
  Out w' = Out w /\ ErrOut w' = ErrOut w /\
  match r with
  | inl allErrs' => exists e, allErrs' = allErrs ++ [e]
  | inr ws' => Written ws' = Written ws
  end.
Proof.
  unfold printGroup.
  destruct (reconstructionRow sameKind emptyTable) as [[[rows mapping] table]|e|msg|];
    try discriminate.
  2:{ intros [= <- <-]. eauto. }
  unfold bind at 1.
  destruct (setNoAdoption_outcome mapping w) as [(w1 & -> & HO & HE & _)|(msg & ->)];
    [|discriminate].
  unfold bind at 1.
  destruct (setColumnDefinition_outcome g (mkTable (ColumnDefinitions table) rows) w1)
    as [(t1 & -> & _)|(msg & ->)]; [|discriminate].
  destruct (ToUnstructured t1) as [e|].
  { intros [= <- <-]. eauto. }
  destruct printer as [| |p]; try discriminate.
  unfold bind, get_world. destruct (p _ t1) as [text|e]; intros [= <- <-]; eauto.
Qed.

(** ** The adoption column's priority *)

Lemma reconstructionRow_loop_mapping objs : forall table acc m rows m' t,
  reconstructionRow_loop objs table acc m = Done (rows, m', t) ->
  m' = match last objs with
       | Some o => Some (Mapping (Info_ o))
       | None => m
       end.
Proof.
  induction objs as [|o objs IH]; simpl; intros table acc m rows m' t Hr.
  - by injection Hr as _ <- _.
  - destruct (asUnstructured _) as [unstr|]; [|discriminate].
    destruct (FromUnstructured unstr) as [tbl|e]; [|discriminate].
    destruct (mapO _ (Rows tbl)) as [rs| | |]; try discriminate.
    apply IH in Hr. rewrite Hr. destruct objs as [|o' objs]; [reflexivity|].
    change (last (o :: o' :: objs)) with (last (o' :: objs)).
    destruct (last (o' :: objs)) eqn:Hl; [reflexivity|].
    by apply last_None in Hl.
Qed.

(** The only change a watch-mode reconstruction makes to the world is
    that of [setNoAdoption] on its mapping. *)
Lemma reconstructObj_world g obj mapping cluster event w t w' :
  reconstructObj g obj mapping cluster event w = (Done t, w') ->
  setNoAdoption mapping w = (Done tt, w').
Proof.
  unfold reconstructObj.
  destruct (asUnstructured obj) as [unstr|]; [|discriminate].
  unfold bind at 1, lift, of_result.
  destruct (FromUnstructured unstr) as [table|e]; [|discriminate].
  unfold bind at 1.
  destruct (mapO _ (Rows table)) as [rows| | |]; try discriminate.
  unfold bind.
  destruct (setNoAdoption_outcome mapping w) as [(w1 & Hs & _)|(msg & Hs)];
    rewrite Hs; [|discriminate].
  destruct (setColumnDefinition_outcome g (mkTable (ColumnDefinitions table) rows) w1)
    as [(t1 & -> & _)|(msg & ->)]; [|discriminate].
  by intros [= _ <-].
Qed.

(** So is the only change that the print of a group makes, on the
    mapping of the last object of the group. *)
Lemma printGroup_world g printer sameKind o ws allErrs w ws' w' :
  last sameKind = Some o ->
  printGroup g printer sameKind ws allErrs w = (Done (inr ws'), w') ->
  setNoAdoption (Some (Mapping (Info_ o))) w = (Done tt, w').
Proof.
  intros Hlast. unfold printGroup.
  destruct (reconstructionRow sameKind emptyTable)
    as [[[rows mapping] table]|e|msg|] eqn:Hr; try discriminate.
  apply reconstructionRow_loop_mapping in Hr. rewrite Hlast in Hr. subst mapping.
  unfold bind at 1.
  destruct (setNoAdoption_outcome (Some (Mapping (Info_ o))) w)
    as [(w1 & Hs & _)|(msg & Hs)]; rewrite Hs; [|discriminate].
  unfold bind at 1.
  destruct (setColumnDefinition_outcome g (mkTable (ColumnDefinitions table) rows) w1)
    as [(t1 & -> & _)|(msg & ->)]; [|discriminate].
  destruct (ToUnstructured t1); [discriminate|].
  destruct printer as [| |p]; try discriminate.
  unfold bind, get_world. destruct (p _ t1); [|discriminate].
  by intros [= _ <-].
Qed.

Lemma bytes_app c1 c2 : bytes (c1 ++ c2) = bytes c1 + bytes c2.
Proof. induction c1 as [|p c1 IH]; simpl; [reflexivity|]. rewrite IH. lia. Qed.

(** The post-condition of the rest of the loop, moved back over one
    object and over what was flushed before the rest started. *)
Lemma loopPost_cons g o objs errs ws ws1 allNs allErrs w w1 chunks1 r w' :
  Out w1 = Out w ++ chunks1 -> ErrOut w1 = ErrOut w ->
  Written ws1 = Written ws + bytes chunks1 ->
  Forall (fun p => p <> "") chunks1 ->
  loopPost g objs errs ws1 (allNs && Namespaced (Info_ o)) allErrs w1 r w' ->
  loopPost g (o :: objs) errs ws allNs allErrs w r w'.
Proof.
  intros HO HE HW Hne [HE' (pe & Hnd & Hpe & Hr)].
  split; [congruence|]. exists pe. split; [exact Hnd|]. split; [exact Hpe|].
  destruct r as [allErrs'|ws' allNs' allErrs']; [exact Hr|].
  destruct Hr as (-> & -> & chunks & HO' & HW' & Hne').
  split; [reflexivity|]. split; [simpl; by rewrite andb_assoc|].
  exists (chunks1 ++ chunks). rewrite HO', HO, HW', HW, bytes_app, <- app_assoc.
  split; [reflexivity|]. split; [lia|]. by apply Forall_app.
Qed.

(** The same, over the recording of a printer error new to [errs]. *)
Lemma loopPost_record g objs errs e allErrs ws allNs w r w' :
  e ∉ errs -> printerError g e ->
  loopPost g objs ({[ e ]} ∪ errs) ws allNs (allErrs ++ [e]) w r w' ->
  loopPost g objs errs ws allNs allErrs w r w'.
Proof.
  intros Hnew Hp [HE (pe & Hnd & Hpe & Hr)].
  split; [exact HE|]. exists (e :: pe). split.
  { constructor; [|exact Hnd]. intros Hin.
    destruct (Hpe _ Hin) as [Hnot _]. apply Hnot.
    apply elem_of_union. left. by apply elem_of_singleton. }
  split.
  { intros e' [->|Hin]%elem_of_cons; [by split|].
    destruct (Hpe _ Hin) as [Hnot Hp']. split; [|exact Hp'].
    intros Hc. apply Hnot. apply elem_of_union. by right. }
  destruct r as [allErrs'|ws' allNs' allErrs'].
  - destruct Hr as [e' ->]. exists e'. by rewrite <- !app_assoc.
  - destruct Hr as (-> & Hrest). split; [by rewrite <- app_assoc|exact Hrest].
Qed.

Lemma loopPost_returned g objs errs ws allNs allErrs w e w' :
  ErrOut w' = ErrOut w ->
  loopPost g objs errs ws allNs allErrs w (Returned (allErrs ++ [e])) w'.
Proof.
  intros HE. split; [exact HE|]. exists []. split; [constructor|].
  split; [intros e' He'; by apply elem_of_nil in He'|]. by exists e.
Qed.

Lemma printObjs_loop_post g k objs :
  forall errs printer lastMapping ws allNs sameKind allErrs w r w',
    printObjs_loop g k objs errs printer lastMapping ws allNs sameKind allErrs w
      = (Done r, w') ->
    loopPost g objs errs ws allNs allErrs w r w'.
Proof.
  induction objs as [|o objs IH];
    intros errs printer lastMapping ws allNs sameKind allErrs w r w' Hrun.
  - injection Hrun as <- <-. split; [reflexivity|]. exists []. split; [constructor|].
    split; [intros e He; by apply elem_of_nil in He|].
    rewrite app_nil_r. split; [reflexivity|]. simpl. rewrite andb_true_r.
    split; [reflexivity|]. exists []. rewrite app_nil_r. simpl.
    split; [reflexivity|]. split; [lia|constructor].
  - cbn [printObjs_loop] in Hrun.
    set (endOfGroup := match objs with
                       | [] => true
                       | o' :: _ => negb (bool_decide
                           (Resource (Mapping (Info_ o)) = Resource (Mapping (Info_ o'))))
                       end) in Hrun.
    assert (Hrest : forall printer' lastMapping' ws1 w1 chunks1,
      Out w1 = Out w ++ chunks1 -> ErrOut w1 = ErrOut w ->
      Written ws1 = Written ws + bytes chunks1 ->
      Forall (fun p => p <> "") chunks1 ->
      (if endOfGroup then
         do r <- printGroup g printer' (sameKind ++ [o]) ws1 allErrs;
         match r with
         | inl allErrs => ret (Returned allErrs)
         | inr ws =>
             printObjs_loop g k objs errs printer' lastMapping' ws
               (allNs && Namespaced (Info_ o)) [] allErrs
         end
       else
         printObjs_loop g k objs errs printer' lastMapping' ws1
           (allNs && Namespaced (Info_ o)) (sameKind ++ [o]) allErrs) w1
      = (Done r, w') ->
      loopPost g (o :: objs) errs ws allNs allErrs w r w').
    { intros printer' lastMapping' ws1 w1 chunks1 HO HE HW Hne Hgo.
      destruct endOfGroup.
      - unfold bind in Hgo.
        destruct (printGroup g printer' (sameKind ++ [o]) ws1 allErrs w1)
          as [[[allErrs'|ws2]| | |] w2] eqn:Hpg; try discriminate.
        + apply printGroup_spec in Hpg as (HO2 & HE2 & [e ->]).
          injection Hgo as <- <-. apply loopPost_returned. congruence.
        + apply printGroup_spec in Hpg as (HO2 & HE2 & HW2).
          apply IH in Hgo.
          eapply (loopPost_cons _ _ _ _ _ ws2 _ _ _ w2 chunks1); eauto; congruence.
      - apply IH in Hgo. eapply loopPost_cons; eauto. }
    destruct (shouldGetNewPrinterForMapping _ _ _).
    + unfold bind at 1 in Hrun.
      destruct (Flush_spec ws w) as (ws1 & w1 & chunks1 & HF & HO & HE & HW & Hne).
      rewrite HF in Hrun.
      set (ws1' := if bool_decide (lastMapping <> None) && negb (NoHeaders g)
                      && negb (Written ws1 =? 0)%nat
                   then mkWriters (Written ws1) true (buffer ws1) else ws1) in Hrun.
      assert (HW' : Written ws1' = Written ws + bytes chunks1).
      { subst ws1'. destruct (_ && _ && _); simpl; exact HW. }
      destruct (ToPrinter g _ false _ k) as [p|e] eqn:Hp.
      * eapply Hrest; eauto.
      * case_bool_decide as Hin.
        -- apply IH in Hrun. eapply loopPost_cons; eauto.
        -- apply IH in Hrun.
           apply loopPost_record in Hrun; [|exact Hin|eexists _, _, _; exact Hp].
           eapply loopPost_cons; eauto.
    + apply (Hrest printer lastMapping ws w []); auto.
      by rewrite app_nil_r.
Qed.

Lemma printIfNotFindResource_nothing g objs allNs w :
  IgnoreNotFound g = false ->
  allNs = negb (AllNamespaces g) && forallb (fun o => Namespaced (Info_ o)) objs ->
  printIfNotFindResource g 0 [] allNs w
  = (Done tt, write_ErrOut (noResources g objs) w).
Proof.
  intros Hi ->. unfold printIfNotFindResource, noResources. rewrite Hi. simpl.
  replace (length (TargetMemberClusters g) =? 0)%nat
    with (bool_decide (TargetMemberClusters g = [])).
  2:{ destruct (TargetMemberClusters g); reflexivity. }
  destruct (negb _ && bool_decide _); [reflexivity|].
  destruct (negb _ && forallb _ _); reflexivity.
Qed.

(** C8.  When a list-mode render ends having written nothing on the
    output and with no error on its list, and not-found is not ignored,
    it writes exactly one line on the error stream: that there are no
    member clusters when the scope leaves the control plane out and no
    member cluster is targeted, else that the namespace holds no
    resources when all the records are namespaced (and not all
    namespaces were asked for), else that no resources were found.  The
    line is not put on the error list, whose aggregate is nil. *)
Theorem empty_listing_diagnostic g objs w w' :
  IgnoreNotFound g = false ->
  printObjs g objs [] w = (Done [], w') ->
  Out w' = Out w ->
  ErrOut w' = ErrOut w ++ [noResources g objs] /\ NewAggregate [] = None.
Proof.
  intros Hi Hrun HO. split; [|reflexivity].
  unfold printObjs, bind at 1 in Hrun.
  destruct (printObjs_loop _ _ _ _ _ _ _ _ _ _ w) as [[r| | |] w1] eqn:Hloop;
    try discriminate.
  apply printObjs_loop_post in Hloop as [HE (pe & _ & _ & Hr)].
  destruct r as [allErrs1|ws1 allNs1 allErrs1].
  { destruct Hr as [e ->]. injection Hrun as Hnil _.
    simpl in Hnil. by destruct pe. }
  destruct Hr as (-> & -> & chunks & HO1 & HW1 & _).
  unfold bind at 1 in Hrun.
  destruct (Flush_spec ws1 w1) as (ws2 & w2 & chunks2 & HF & HO2 & HE2 & HW2 & _).
  rewrite HF in Hrun. unfold bind in Hrun.
  destruct (printIfNotFindResource g (Written ws2) ([] ++ pe) _ w2)
    as [[[]| | |] w3] eqn:Hp; try discriminate.
  injection Hrun as Hpe <-. simpl in Hpe. subst pe.
  assert (Hw3 : Out w3 = Out w2).
  { revert Hp. unfold printIfNotFindResource, modify, ret.
    repeat (destruct (_ || _) || destruct (_ && _) || destruct allNs1);
      intros [= <-]; reflexivity. }
  assert (Hch : chunks ++ chunks2 = []).
  { rewrite Hw3, HO2, HO1, <- app_assoc in HO.
    apply (app_inv_head (Out w)). by rewrite app_nil_r. }
  apply app_eq_nil in Hch as [-> ->]. simpl in *.
  replace (Written ws2) with 0 in Hp by lia.
  rewrite (printIfNotFindResource_nothing g objs _ w2 Hi eq_refl) in Hp.
  injection Hp as <-. simpl. by rewrite HE2, HE.
Qed.

Lemma schedule_nil {A} (sched : Schedule) : schedule sched (@nil A) = [].
Proof. induction sched as [|i sched IH]; [reflexivity|exact IH]. Qed.

(** No target and no record: the run returns no error and writes the
    one line about member clusters. *)
Lemma Run_without_targets g f args sched w :
  OperationScope_ g = Members -> TargetMemberClusters g = [] ->
  Watch g = false -> WatchOnly g = false -> IsHumanReadablePrinter g = true ->
  IgnoreNotFound g = false ->
  Run printGeneric g f args sched w
  = (Done None,
     write_ErrOut ("No member Clusters found in Karmada control plane" +:+ LF) w).
Proof.
  intros Hs Ht Hw Hwo Hh Hi. unfold Run. rewrite Hs, Ht, Hw, Hwo, Hh. simpl.
  rewrite schedule_nil.
  unfold bind at 1, ret. unfold bind at 1. simpl.
  rewrite (proj1 (Permutation_nil_r _) (sort_Slice_perm Obj lessResource [])).
  unfold bind, printObjs, bind. simpl. unfold printIfNotFindResource.
  rewrite Hi, Hs, Ht. reflexivity.
Qed.


(** ** A watch without handles *)

Lemma getObjInfo_no_handle g f cluster isControlPlane c args w :
  producesNoHandle g args cluster isControlPlane f ->
  exists e, getObjInfo printGeneric g f cluster isControlPlane c args w
            = (Done (addErr c e), w).
Proof.
  unfold producesNoHandle, getObjInfo.
  destruct (RESTClient f) as [err|]; [by eexists|].
  intros [[? [=]]|[[-> [perr Hp]]|[err He]]].
  - rewrite bool_decide_eq_true_2 by eauto. by eexists.
  - destruct (negb isControlPlane && _); [by eexists|]. rewrite He. by eexists.
Qed.

Lemma runTask_no_handle g mf cluster missed older c args w :
  producesNoHandle g args cluster false mf ->
  exists c', runTask printGeneric g mf cluster missed older c args w = (Done c', w) /\
             watchObjs c' = watchObjs c.
Proof.
  intros Hno. unfold runTask, bind.
  destruct (getObjInfo_no_handle g mf cluster false
              (mkCollected (objs c) (watchObjs c) (readErrs missed (allErrs c) older))
              args w Hno) as [e ->].
  unfold addErr, ret. cbn [objs watchObjs allErrs].
  eexists. split; [reflexivity|]. by destruct (bool_decide _).
Qed.

Lemma runTasks_no_handle g args tasks :
  (forall cluster mf missed, (cluster, mf, missed) ∈ tasks ->
     producesNoHandle g args cluster false mf) ->
  forall older c w, exists c',
    runTasks printGeneric g tasks older c args w = (Done c', w) /\
    watchObjs c' = watchObjs c.
Proof.
  induction tasks as [|[[cluster mf] missed] tasks IH]; intros Hall older c w.
  - by exists c.
  - destruct (runTask_no_handle g mf cluster missed older c args w) as (c1 & Hrun & Hw1).
    { eapply Hall. apply list_elem_of_here. }
    destruct (IH (fun cl f m Hin => Hall cl f m (list_elem_of_further _ _ _ Hin))
                 (allErrs c :: older) c1 w) as (c' & Hrun' & Hw).
    exists c'. split; [|congruence]. simpl. unfold bind. rewrite Hrun. exact Hrun'.
Qed.

Lemma schedule_sound {A} (sched : Schedule) (tasks : list A) x missed :
  (x, missed) ∈ schedule sched tasks -> x ∈ tasks.
Proof.
  unfold schedule. intros (s & _ & Hs)%list_elem_of_omap.
  destruct (tasks !! task s) as [t|] eqn:Ht; [|discriminate].
  injection Hs as <- _. apply list_elem_of_lookup. eauto.
Qed.

(** C10.  [watch] on an empty list of watch handles returns an error,
    having written nothing; and a watch-mode run in which no target
    produces a handle -- each of them failing at its REST client, its
    probe or its query -- returns that error (and not the errors of the
    targets), whatever the order in which the tasks end. *)
Theorem watch_without_handles g f args sched tasks w :
  Watch g || WatchOnly g = true ->
  memberFactories f (TargetMemberClusters g) = Ok tasks ->
  (ContainKarmadaScope (OperationScope_ g) = true ->
     producesNoHandle g args "Karmada" true (controlPlane f)) ->
  (forall cluster mf, (cluster, mf) ∈ tasks ->
     producesNoHandle g args cluster false mf) ->
  watch g [] w = (Failed "not to find obj that is watched", w) /\
  Run printGeneric g f args sched w
  = (Done (Some (PlainError "not to find obj that is watched")), w).
Proof.
  intros Hwatch Hfs Hcp Hmembers. split; [reflexivity|].
  unfold Run. rewrite Hfs, Hwatch.
  assert (Hfirst : exists c1,
    (if ContainKarmadaScope (OperationScope_ g)
     then getObjInfo printGeneric g (controlPlane f) "Karmada" true
            (mkCollected [] [] []) args
     else ret (mkCollected [] [] [])) w = (Done c1, w) /\ watchObjs c1 = []).
  { destruct (ContainKarmadaScope _).
    - destruct (getObjInfo_no_handle g (controlPlane f) "Karmada" true
                  (mkCollected [] [] []) args w (Hcp eq_refl)) as [e ->].
      by eexists.
    - by eexists. }
  destruct Hfirst as (c1 & Hrun1 & Hw1).
  destruct (runTasks_no_handle g args (schedule sched tasks)
              (fun cl mf m Hin => Hmembers cl mf (schedule_sound _ _ _ _ Hin)) [] c1 w)
    as (c & Hrun & Hw).
  unfold bind at 1. rewrite Hrun1. unfold bind. rewrite Hrun, Hw, Hw1.
  reflexivity.
Qed.

End Properties.

(** * Further properties of the code *)

Section Further.
Context `{Deps}.
Variable printGeneric : CommandGetOptions -> Result -> M (option error).

(** ** Kinds *)

(** X1.  Whether [multipleGVKsRequested] holds of a list of records
    does not depend on their order: it holds exactly when two of them
    differ in group, version or kind. *)
Theorem multipleGVKsRequested_any_order (objs objs' : list Obj) :
  objs ≡ₚ objs' ->
  multipleGVKsRequested objs = multipleGVKsRequested objs' /\
  (multipleGVKsRequested objs = true <->
   exists o1 o2, o1 ∈ objs' /\ o2 ∈ objs' /\
     GroupVersionKind_ (Mapping (Info_ o1)) <> GroupVersionKind_ (Mapping (Info_ o2))).
Proof.
  intros Hperm.
  assert (Hiff : multipleGVKsRequested objs = true <->
                 multipleGVKsRequested objs' = true).
  { rewrite !multipleGVKsRequested_true. split.
    - intros (o1 & o2 & H1 & H2 & Hne). exists o1, o2.
      rewrite <- Hperm. auto.
    - intros (o1 & o2 & H1 & H2 & Hne). exists o1, o2.
      rewrite Hperm. auto. }
  split.
  - destruct (multipleGVKsRequested objs), (multipleGVKsRequested objs');
      try reflexivity.
    + symmetry. by apply Hiff.
    + by apply Hiff.
  - rewrite Hiff. apply multipleGVKsRequested_true.
Qed.

(** ** The writers *)

Lemma append_nil_r (a : string) : a +:+ "" = a.
Proof.
  induction a as [|c a IH]; [reflexivity|].
  change (String c (a +:+ "") = String c a). by rewrite IH.
Qed.

Lemma append_assoc (a b c : string) : (a +:+ b) +:+ c = a +:+ (b +:+ c).
Proof.
  induction a as [|x a IH]; [reflexivity|].
  change (String x ((a +:+ b) +:+ c) = String x (a +:+ (b +:+ c))). by rewrite IH.
Qed.

Lemma length_append (a b : string) :
  String.length (a +:+ b) = String.length a + String.length b.
Proof.
  induction a as [|x a IH]; [reflexivity|].
  change (S (String.length (a +:+ b)) = S (String.length a + String.length b)).
  by rewrite IH.
Qed.

Lemma cat_snoc chunks p : cat (chunks ++ [p]) = cat chunks +:+ p.
Proof.
  induction chunks as [|q chunks IH]; simpl; [apply append_nil_r|].
  by rewrite IH, append_assoc.
Qed.

Lemma append_empty (a b : string) : a +:+ b = "" <-> a = "" /\ b = "".
Proof.
  destruct a as [|x a].
  - change ("" +:+ b) with b. split; [by intros ->|by intros [_ ->]].
  - change (String x a +:+ b) with (String x (a +:+ b)).
    split; [discriminate|intros [[=] _]].
Qed.

(** X2.  Over any run of writes through the separator writer, started
    from a writer whose ready flag was set to [state]: the bytes that
    reach the output are the bytes written, behind exactly one line
    feed when the flag was set and some byte is written; the tracking
    writer counts exactly those bytes; and the flag is still set
    afterwards only if it was set and nothing but empty writes came. *)
Theorem separator_written_once state ps ws w :
  exists ws' w',
    writeAll ps (SetReady state ws) w = (Done ws', w') /\
    let separator :=
      if state && negb (bool_decide (cat ps = "")) then LF else "" in
    cat (Out w') = cat (Out w) +:+ separator +:+ cat ps /\
    Written ws' = Written ws + String.length (separator +:+ cat ps) /\
    Ready ws' = state && bool_decide (cat ps = "") /\
    ErrOut w' = ErrOut w /\ podColumns w' = podColumns w.
Proof.
  unfold SetReady.
  assert (Hgen : forall ps written ready buf w0, exists ws' w',
    writeAll ps (mkWriters written ready buf) w0 = (Done ws', w') /\
    cat (Out w') = cat (Out w0)
                   +:+ (if ready && negb (bool_decide (cat ps = "")) then LF else "")
                   +:+ cat ps /\
    Written ws' = written
                  + String.length ((if ready && negb (bool_decide (cat ps = ""))
                                    then LF else "") +:+ cat ps) /\
    Ready ws' = ready && bool_decide (cat ps = "") /\
    ErrOut w' = ErrOut w0 /\ podColumns w' = podColumns w0).
  { clear ps ws w state.
    induction ps as [|p ps IH]; intros written ready buf w0.
    - eexists _, _. split; [reflexivity|]. simpl.
      rewrite andb_false_r, andb_true_r. simpl. rewrite append_nil_r.
      repeat split; lia.
    - cbn [writeAll]. unfold bind at 1, separatorWrite.
      rewrite length_zero_eqb. cbn [Ready Written buffer].
      destruct (decide (p = "")) as [->|Hp].
      + rewrite bool_decide_eq_true_2 by reflexivity. cbn [negb andb].
        unfold trackingWrite, bind, modify, ret. cbn [Ready Written buffer].
        destruct (IH (written + String.length "") ready buf (write_Out "" w0))
          as (ws' & w' & Hrun & HO & HW & HR & HE & HP).
        exists ws', w'. split; [exact Hrun|]. cbn [cat].
        change ("" +:+ cat ps) with (cat ps).
        simpl in HO, HW. rewrite cat_snoc, append_nil_r in HO.
        repeat split; auto. rewrite HW. simpl. lia.
      + rewrite bool_decide_eq_false_2 by exact Hp. cbn [negb andb].
        assert (Hne : bool_decide (cat (p :: ps) = "") = false).
        { apply bool_decide_eq_false_2. cbn [cat]. rewrite append_empty.
          by intros [? _]. }
        rewrite Hne. cbn [negb]. rewrite !andb_true_r, andb_false_r.
        destruct ready.
        * unfold bind at 1, trackingWrite, bind, modify, ret.
          cbn [Ready Written buffer].
          destruct (IH (written + String.length LF + String.length p) false buf
                       (write_Out p (write_Out LF w0)))
            as (ws' & w' & Hrun & HO & HW & HR & HE & HP).
          exists ws', w'. split; [exact Hrun|].
          cbn [andb] in HO, HW, HR. simpl in HO.
          rewrite !cat_snoc in HO. change ("" +:+ cat ps) with (cat ps) in *.
          cbn [cat]. split; [by rewrite HO, !append_assoc|].
          split; [rewrite HW, !length_append; simpl; lia|].
          repeat split; auto.
        * unfold trackingWrite, bind, modify, ret. cbn [Ready Written buffer].
          destruct (IH (written + String.length p) false buf (write_Out p w0))
            as (ws' & w' & Hrun & HO & HW & HR & HE & HP).
          exists ws', w'. split; [exact Hrun|].
          cbn [andb] in HO, HW, HR. simpl in HO.
          rewrite !cat_snoc in HO. change ("" +:+ cat ps) with (cat ps) in *.
          cbn [cat]. split; [by rewrite HO, !append_assoc|].
          split; [rewrite HW, !length_append; simpl; lia|].
          repeat split; auto. }
  destruct ws as [written ready buf]. apply Hgen.
Qed.

(** ** The diagnostic of a render *)

Lemma bytes_zero chunks :
  Forall (fun p => p <> "") chunks -> bytes chunks = 0 -> chunks = [].
Proof.
  destruct chunks as [|p chunks]; [reflexivity|].
  intros Hne Hz. apply Forall_cons in Hne as [Hp _]. simpl in Hz.
  destruct p; [contradiction|]. simpl in Hz. lia.
Qed.

(** X3.  A render writes on the error stream only when it has nothing
    else to show: whenever [printObjs] returns, either the error stream
    is as it was, or it holds one more line, the diagnostic of an empty
    listing, and then nothing was written on the output, the error list
    is empty and not-found is not ignored. *)
Theorem diagnostic_only_when_silent g objs errs0 w errs1 w' :
  printObjs g objs errs0 w = (Done errs1, w') ->
  ErrOut w' = ErrOut w \/
  (ErrOut w' = ErrOut w ++ [noResources g objs] /\
   Out w' = Out w /\ errs1 = [] /\ errs0 = [] /\ IgnoreNotFound g = false).
Proof.
  intros Hrun. unfold printObjs, bind at 1 in Hrun.
  destruct (printObjs_loop _ _ _ _ _ _ _ _ _ _ w) as [[r| | |] w1] eqn:Hloop;
    try discriminate.
  apply printObjs_loop_post in Hloop as [HE (pe & _ & _ & Hr)].
  destruct r as [allErrs1|ws1 allNs1 allErrs1].
  { injection Hrun as _ <-. by left. }
  destruct Hr as (-> & -> & chunks & HO1 & HW1 & Hne1).
  unfold bind at 1 in Hrun.
  destruct (Flush_spec ws1 w1) as (ws2 & w2 & chunks2 & HF & HO2 & HE2 & HW2 & Hne2).
  rewrite HF in Hrun. unfold bind in Hrun.
  destruct (printIfNotFindResource g (Written ws2) (errs0 ++ pe) _ w2)
    as [[[]| | |] w3] eqn:Hp; try discriminate.
  injection Hrun as <- <-.
  unfold printIfNotFindResource in Hp.
  destruct (negb (Written ws2 =? 0)%nat || IgnoreNotFound g
            || negb (length (errs0 ++ pe) =? 0)%nat) eqn:Hcond.
  { injection Hp as <-. left. congruence. }
  apply orb_false_elim in Hcond as [Hcond Herrs].
  apply orb_false_elim in Hcond as [Hwritten Hignore].
  apply negb_false_iff, Nat.eqb_eq in Hwritten, Herrs.
  apply length_zero_iff_nil in Herrs.
  assert (chunks ++ chunks2 = []) as [-> ->]%app_eq_nil.
  { apply bytes_zero; [by apply Forall_app|].
    rewrite bytes_app. simpl in HW1. lia. }
  right. rewrite app_nil_r in HO1, HO2.
  pose proof (printIfNotFindResource_nothing g objs _ w2 Hignore eq_refl) as Hnothing.
  unfold printIfNotFindResource in Hnothing.
  rewrite Hignore in Hnothing. simpl in Hnothing. rewrite Hnothing in Hp.
  injection Hp as <-. simpl.
  apply app_eq_nil in Herrs as [-> ->].
  repeat split; congruence.
Qed.

(** ** Rows and columns *)

(** On a [podColumns] of two columns [setNoAdoption] returns, keeps the
    first column and at most raises the priority of the second. *)
Lemma setNoAdoption_two_columns mapping w c0 c1 :
  podColumns w = [c0; c1] ->
  exists w1 c1',
    setNoAdoption mapping w = (Done tt, w1) /\
    podColumns w1 = [c0; c1'] /\ Name c1' = Name c1 /\
    (Priority c1' = Priority c1 \/ Priority c1' = 1%Z).
Proof.
  intros Hcols. unfold setNoAdoption.
  destruct mapping as [m|]; [|exists w, c1; by eauto].
  destruct (String.eqb _ _); [|exists w, c1; by eauto].
  unfold bind, get_world, modify. simpl. rewrite Hcols. simpl.
  eexists _, _. split; [reflexivity|]. simpl. eauto.
Qed.

Lemma reconstructObj_columns g obj unstr table mapping cluster event w t w' c0 c1
    cd0 cds :
  asUnstructured obj = Some unstr ->
  FromUnstructured unstr = Ok table ->
  ColumnDefinitions table = cd0 :: cds ->
  podColumns w = [c0; c1] ->
  reconstructObj g obj mapping cluster event w = (Done t, w') ->
  exists c1',
    ColumnDefinitions t
    = (if OutputWatchEvents g then [eventColumn] else [])
      ++ [cd0; c0] ++ cds ++ [c1'].
Proof.
  intros Hu Hf Hcd Hcols. unfold reconstructObj. rewrite Hu.
  unfold bind at 1, lift, of_result. rewrite Hf. unfold bind at 1.
  destruct (mapO _ (Rows table)) as [rows| | |]; try discriminate.
  unfold bind.
  destruct (setNoAdoption_two_columns mapping w c0 c1 Hcols)
    as (w1 & c1' & -> & Hcols1 & _).
  unfold setColumnDefinition. cbn [ColumnDefinitions]. rewrite Hcd.
  unfold bind, get_world, ret. rewrite Hcols1.
  intros [= <- <-]. exists c1'. by destruct (OutputWatchEvents g).
Qed.

(** X4.  The table that [reconstructObj] returns from a table with
    column definitions, in a world whose [podColumns] holds its two
    columns, has two columns more than the original, behind the event
    column when events are shown; the cluster column stands where the
    cluster cell of every row stands; and a row that had one cell per
    column has one cell per column again exactly when its document
    unmarshals -- otherwise it is one cell short of the columns. *)
Theorem reconstructed_cells_match_columns g obj unstr table mapping cluster event
    w t w' c0 c1 cd0 cds :
  asUnstructured obj = Some unstr ->
  FromUnstructured unstr = Ok table ->
  ColumnDefinitions table = cd0 :: cds ->
  podColumns w = [c0; c1] ->
  reconstructObj g obj mapping cluster event w = (Done t, w') ->
  let front := length (eventCells g event) in
  length (ColumnDefinitions t) = front + length (ColumnDefinitions table) + 2 /\
  ColumnDefinitions t !! (front + 1) = Some c0 /\
  Forall2 (fun row row' =>
             Cells row' !! (front + 1) = Some (CellString cluster) /\
             (length (Cells row) = length (ColumnDefinitions table) ->
              (length (Cells row') = length (ColumnDefinitions t) <-> unmarshals row) /\
              (~ unmarshals row ->
               length (Cells row') + 1 = length (ColumnDefinitions t))))
          (Rows table) (Rows t).
Proof.
  intros Hu Hf Hcd Hcols Hrun.
  destruct (reconstructObj_columns _ _ _ _ _ _ _ _ _ _ _ _ _ _ Hu Hf Hcd Hcols Hrun)
    as [c1' Ht].
  apply reconstructObj_rows in Hrun as (unstr' & table' & Hu' & Hf' & Hrows).
  rewrite Hu in Hu'. injection Hu' as <-. rewrite Hf in Hf'. injection Hf' as <-.
  assert (Hlen : length (ColumnDefinitions t)
                 = length (eventCells g event) + length (ColumnDefinitions table) + 2).
  { rewrite Ht, Hcd. unfold eventCells. destruct (OutputWatchEvents g); simpl;
      rewrite ?length_app; simpl; lia. }
  split; [exact Hlen|]. split.
  { rewrite Ht. unfold eventCells. by destruct (OutputWatchEvents g). }
  eapply Forall2_impl; [exact Hrows|].
  intros row row' (_ & x & rest & Hcells & Hshape). unfold unmarshals.
  destruct (UnmarshalJSON (Raw row)) as [u|e]; destruct Hshape as [Hc Hl].
  - split.
    { rewrite Hc. unfold eventCells. by destruct (OutputWatchEvents g). }
    intros Hfull. split; [|intros Hn; by destruct Hn]. split; [done|]. intros _. lia.
  - split.
    { rewrite Hc. unfold eventCells. by destruct (OutputWatchEvents g). }
    intros Hfull. split; [|intros _; lia]. split; [lia|intros []].
Qed.

(** ** What reconstruction keeps, and when it succeeds *)

Lemma mapO_Raw {A} (f : A -> TableRow -> outcome TableRow) (a : A) rows rows' :
  (forall row row', f a row = Done row' -> Raw row' = Raw row) ->
  mapO (f a) rows = Done rows' -> map Raw rows' = map Raw rows.
Proof.
  intros Hf Hm. apply mapO_Done in Hm.
  induction Hm as [|row row' rows rows' Hrow _ IH]; [reflexivity|].
  simpl. by rewrite IH, (Hf _ _ Hrow).
Qed.

Lemma reconstructionRow_loop_order objs : forall table acc m rows m' t,
  reconstructionRow_loop objs table acc m = Done (rows, m', t) ->
  map Raw rows = map Raw acc ++ flat_map rawsOf objs /\
  match last objs with
  | Some o => exists tb, tableOf o = Some tb /\
                         ColumnDefinitions t = ColumnDefinitions tb
  | None => t = table
  end.
Proof.
  induction objs as [|o objs IH]; simpl; intros table acc m rows m' t Hr.
  - injection Hr as <- _ <-. by rewrite app_nil_r.
  - destruct (asUnstructured _) as [unstr|] eqn:Hu; [|discriminate].
    destruct (FromUnstructured unstr) as [tbl|e] eqn:Hf; [|discriminate].
    destruct (mapO _ (Rows tbl)) as [rs| | |] eqn:Hm; try discriminate.
    assert (Htb : tableOf o = Some tbl) by (unfold tableOf; by rewrite Hu, Hf).
    unfold rawsOf at 1. rewrite Htb.
    apply IH in Hr as [Hraw Hcols].
    apply (mapO_Raw reconstructionRow_row) in Hm.
    2:{ intros row row' Hrow. by apply reconstructionRow_row_shape in Hrow as [? _]. }
    split.
    + rewrite Hraw, map_app, Hm, <- app_assoc. reflexivity.
    + destruct objs as [|o' objs].
      * simpl in Hcols. subst t. by exists tbl.
      * change (last (o :: o' :: objs)) with (last (o' :: objs)).
        destruct (last (o' :: objs)) eqn:Hl; [exact Hcols|].
        by apply last_None in Hl.
Qed.

(** X5.  The rows that [reconstructionRow] returns are the rows of the
    records, each once, in the order of the records and, within a
    record, of its table (as their raw documents show); the mapping it
    returns is that of the last record, and the column definitions it
    leaves in the table are those of the table of the last record. *)
Theorem reconstructionRow_keeps_rows_in_order objs o table0 rows m t :
  last objs = Some o ->
  reconstructionRow objs table0 = Done (rows, m, t) ->
  map Raw rows = flat_map rawsOf objs /\
  m = Some (Mapping (Info_ o)) /\
  exists tb, tableOf o = Some tb /\ ColumnDefinitions t = ColumnDefinitions tb.
Proof.
  intros Hlast Hr. unfold reconstructionRow in Hr.
  pose proof (reconstructionRow_loop_mapping _ _ _ _ _ _ _ Hr) as Hm.
  apply reconstructionRow_loop_order in Hr as [Hraw Hcols].
  rewrite Hlast in Hm, Hcols. auto.
Qed.

Lemma mapO_is_Done {A B} (f : A -> outcome B) l :
  (exists l', mapO f l = Done l') <-> Forall (fun a => exists b, f a = Done b) l.
Proof.
  induction l as [|a l IH]; simpl.
  - split; [constructor|by eexists].
  - rewrite Forall_cons, <- IH. split.
    + intros [l' Hl']. destruct (f a) as [b| | |]; try discriminate.
      destruct (mapO f l) as [bs| | |]; try discriminate. split; by eexists.
    + intros [[b ->] [bs ->]]. by eexists.
Qed.

Lemma reconstructionRow_row_is_Done o row :
  (exists row', reconstructionRow_row o row = Done row') <-> Cells row <> [].
Proof.
  unfold reconstructionRow_row. destruct (Cells row) as [|c0 rest].
  - split; [by intros [? ?]|done].
  - split; [done|]. intros _.
    destruct (UnmarshalJSON _); [|by eexists].
    destruct (IsControlPlane o); [by eexists|].
    destruct (managedLabel _); by eexists.
Qed.

Lemma reconstructObj_row_is_Done g cluster event row :
  (exists row', reconstructObj_row g cluster event row = Done row') <-> Cells row <> [].
Proof.
  unfold reconstructObj_row. destruct (Cells row) as [|c0 rest].
  - split; [by intros [? ?]|done].
  - split; [done|]. intros _.
    destruct (UnmarshalJSON _); [|by eexists].
    destruct (managedLabel _); by eexists.
Qed.

Lemma reconstructionRow_loop_is_Done objs : forall table acc m,
  (exists r, reconstructionRow_loop objs table acc m = Done r) <->
  Forall (fun o => exists tb, tableOf o = Some tb /\ rebuildable tb) objs.
Proof.
  induction objs as [|o objs IH]; intros table acc m; simpl.
  - split; [constructor|by eexists].
  - rewrite Forall_cons. unfold tableOf at 1.
    destruct (asUnstructured _) as [unstr|].
    2:{ split; [by intros [? ?]|by intros [(? & ? & _) _]]. }
    destruct (FromUnstructured unstr) as [tbl|e].
    2:{ split; [by intros [? ?]|by intros [(? & ? & _) _]]. }
    assert (Hrows : (exists rs, mapO (reconstructionRow_row o) (Rows tbl) = Done rs)
                    <-> rebuildable tbl).
    { rewrite mapO_is_Done. unfold rebuildable. apply Forall_proper; [|done].
      intros row. apply reconstructionRow_row_is_Done. }
    destruct (mapO _ (Rows tbl)) as [rs| | |] eqn:Hm.
    + rewrite IH. split.
      * intros Hall. split; [|exact Hall]. exists tbl. split; [done|].
        apply Hrows. by eexists.
      * by intros [_ Hall].
    + split; [by intros [? ?]|]. intros [(tb & [= <-] & Hre) _].
      apply Hrows in Hre as [? ?]. discriminate.
    + split; [by intros [? ?]|]. intros [(tb & [= <-] & Hre) _].
      apply Hrows in Hre as [? ?]. discriminate.
    + split; [by intros [? ?]|]. intros [(tb & [= <-] & Hre) _].
      apply Hrows in Hre as [? ?]. discriminate.
Qed.

(** X6.  [reconstructionRow] returns rows exactly when the object of
    every record converts to a table each of whose rows has a first
    cell; one record that does not makes the whole call end without
    rows, by the error of the conversion or by the panic of the
    index. *)
Theorem reconstructionRow_succeeds_iff objs table0 :
  (exists rows m t, reconstructionRow objs table0 = Done (rows, m, t)) <->
  Forall (fun o => exists tb, tableOf o = Some tb /\ rebuildable tb) objs.
Proof.
  rewrite <- (reconstructionRow_loop_is_Done objs table0 [] None).
  unfold reconstructionRow. split.
  - intros (rows & m & t & Hr). by eexists.
  - intros [[[rows m] t] Hr]. by eexists _, _, _.
Qed.

Lemma reconstructObj_unfold g obj mapping cluster event w :
  reconstructObj g obj mapping cluster event w =
  match asUnstructured obj with
  | None => (Failed "attempt to decode non-Unstructured object", w)
  | Some unstr =>
      match FromUnstructured unstr with
      | Error e => (Failed e, w)
      | Ok table =>
          match mapO (reconstructObj_row g cluster event) (Rows table) with
          | Done rows =>
              (setNoAdoption mapping;;
               setColumnDefinition g (mkTable (ColumnDefinitions table) rows)) w
          | Failed e => (Failed e, w)
          | Panic msg => (Panic msg, w)
          | Blocked => (Blocked, w)
          end
      end
  end.
Proof.
  unfold reconstructObj. destruct (asUnstructured obj) as [unstr|]; [|reflexivity].
  unfold bind at 1, lift, of_result.
  destruct (FromUnstructured unstr) as [table|e]; [|reflexivity].
  unfold bind at 1. by destruct (mapO _ (Rows table)).
Qed.

(** X7.  In a world whose [podColumns] holds its two columns,
    [reconstructObj] returns a table exactly when the object is an
    unstructured one that converts to a table each of whose rows has a
    first cell; it panics only on a row without cells, and it fails
    only on an object that is not unstructured or does not convert. *)
Theorem reconstructObj_succeeds_iff g obj mapping cluster event w c0 c1 :
  podColumns w = [c0; c1] ->
  ((exists t w', reconstructObj g obj mapping cluster event w = (Done t, w')) <->
   (exists unstr tb, asUnstructured obj = Some unstr /\
                     FromUnstructured unstr = Ok tb /\ rebuildable tb)) /\
  (forall msg w', reconstructObj g obj mapping cluster event w = (Panic msg, w') ->
     exists unstr tb row, asUnstructured obj = Some unstr /\
       FromUnstructured unstr = Ok tb /\ row ∈ Rows tb /\ Cells row = []) /\
  (forall e w', reconstructObj g obj mapping cluster event w = (Failed e, w') ->
     asUnstructured obj = None \/
     exists unstr, asUnstructured obj = Some unstr /\
                   FromUnstructured unstr = Error e).
Proof.
  intros Hcols. rewrite reconstructObj_unfold.
  destruct (asUnstructured obj) as [unstr|] eqn:Hu.
  2:{ split; [|split].
      - split; [by intros (? & ? & ?)|by intros (? & ? & ? & _)].
      - discriminate.
      - auto. }
  destruct (FromUnstructured unstr) as [tb|e0] eqn:Hf.
  2:{ split; [|split].
      - split; [by intros (? & ? & ?)|].
        intros (unstr' & tb' & [= <-] & Hf' & _). congruence.
      - discriminate.
      - intros e w' [= <- <-]. right. by exists unstr. }
  assert (Hrows : (exists rs, mapO (reconstructObj_row g cluster event) (Rows tb)
                              = Done rs) <-> rebuildable tb).
  { rewrite mapO_is_Done. unfold rebuildable. apply Forall_proper; [|done].
    intros row. apply reconstructObj_row_is_Done. }
  destruct (mapO _ (Rows tb)) as [rows| | |] eqn:Hm.
  - unfold bind.
    destruct (setNoAdoption_two_columns mapping w c0 c1 Hcols)
      as (w1 & c1' & -> & Hcols1 & _).
    assert (Hset : exists t, setColumnDefinition g
                     (mkTable (ColumnDefinitions tb) rows) w1 = (Done t, w1)).
    { unfold setColumnDefinition. cbn [ColumnDefinitions].
      destruct (ColumnDefinitions tb); [by eexists|].
      unfold bind, get_world, ret. rewrite Hcols1. by eexists. }
    destruct Hset as [t1 ->].
    split; [|split]; [|discriminate..].
    split.
    + intros _. exists unstr, tb. split; [done|]. split; [done|].
      apply Hrows. by eexists.
    + intros _. by eexists _, _.
  - exfalso. revert Hm. clear. induction (Rows tb) as [|row rs IH]; simpl;
      [discriminate|].
    unfold reconstructObj_row at 1. destruct (Cells row); [discriminate|].
    destruct (UnmarshalJSON _); [destruct (managedLabel _)|];
      destruct (mapO _ rs); try discriminate; auto.
  - split; [|split].
    + split; [by intros (? & ? & ?)|].
      intros (unstr' & tb' & [= <-] & Hf' & Hre).
      rewrite Hf in Hf'. injection Hf' as <-.
      apply Hrows in Hre as [? ?]. discriminate.
    + intros _ _ _. exists unstr, tb.
      assert (Hnot : ~ rebuildable tb).
      { intros Hre. apply Hrows in Hre as [? ?]. discriminate. }
      unfold rebuildable in Hnot. apply not_Forall_Exists in Hnot; [|apply _].
      apply Exists_exists in Hnot as (row & Hin & Hempty).
      exists row. split; [done|]. split; [done|]. split; [exact Hin|].
      destruct (Cells row) eqn:Hc; [reflexivity|]. exfalso. apply Hempty.
      rewrite Hc. discriminate.
    + discriminate.
  - exfalso. revert Hm. apply mapO_not_blocked. intros row.
    unfold reconstructObj_row. destruct (Cells row); [discriminate|].
    destruct (UnmarshalJSON _); [destruct (managedLabel _)|]; discriminate.
Qed.

(** ** The priority of the adoption column *)

Lemma setColumnDefinition_two_columns g table cd0 cds w c0 c1 :
  ColumnDefinitions table = cd0 :: cds ->
  podColumns w = [c0; c1] ->
  setColumnDefinition g table w
  = (Done (mkTable ((if OutputWatchEvents g then [eventColumn] else [])
                      ++ [cd0; c0] ++ cds ++ [c1]) (Rows table)), w).
Proof.
  intros Hcd Hcols. unfold setColumnDefinition. rewrite Hcd.
  unfold bind, get_world, ret. rewrite Hcols. by destruct (OutputWatchEvents g).
Qed.

Lemma setNoAdoption_adoptionColumn m w c0 c1 :
  podColumns w = [c0; c1] ->
  exists w1, setNoAdoption (Some m) w = (Done tt, w1) /\
             podColumns w1 = [c0; adoptionColumn m c1].
Proof.
  intros Hcols. unfold setNoAdoption, adoptionColumn.
  destruct (String.eqb _ _).
  - unfold bind, get_world, modify. simpl. rewrite Hcols. simpl. by eexists.
  - exists w. split; [reflexivity|]. rewrite Hcols. by destruct c1.
Qed.

Lemma last_columns (front : list TableColumnDefinition) cd0 c0 cds c1 :
  last (front ++ [cd0; c0] ++ cds ++ [c1]) = Some c1.
Proof. by rewrite !app_assoc, last_snoc. Qed.

(** C3 (amended).  The adoption column of a table rendered under the
    mapping [m] -- in watch mode by [reconstructObj], in list mode by
    the same two calls -- is the last column and has priority 1 when the
    resource of [m] is pods, and otherwise the priority that
    [podColumns[1]] has at the time: for pods the column is left out of
    the default view, for any other resource it is in the default view
    exactly when [podColumns[1]] still has priority 0. *)
Theorem adoption_priority_by_resource g m table cd0 cds w c0 c1 :
  ColumnDefinitions table = cd0 :: cds ->
  podColumns w = [c0; c1] ->
  (exists t' w',
     (setNoAdoption (Some m);; setColumnDefinition g table) w = (Done t', w') /\
     last (ColumnDefinitions t') = Some (adoptionColumn m c1)) /\
  (forall obj cluster event unstr,
     asUnstructured obj = Some unstr -> FromUnstructured unstr = Ok table ->
     rebuildable table ->
     exists t w',
       reconstructObj g obj (Some m) cluster event w = (Done t, w') /\
       last (ColumnDefinitions t) = Some (adoptionColumn m c1)) /\
  (gvr_Resource (Resource m) = "pods" -> hiddenByDefault (adoptionColumn m c1)) /\
  (gvr_Resource (Resource m) <> "pods" ->
   (hiddenByDefault (adoptionColumn m c1) <-> hiddenByDefault c1)).
Proof.
  intros Hcd Hcols.
  destruct (setNoAdoption_adoptionColumn m w c0 c1 Hcols) as (w1 & Hset & Hcols1).
  split; [|split; [|split]].
  - unfold bind. rewrite Hset. cbv beta iota.
    rewrite (setColumnDefinition_two_columns g table cd0 cds w1 _ _ Hcd Hcols1).
    eexists _, _. split; [reflexivity|]. simpl. apply last_columns.
  - intros obj cluster event unstr Hu Hf Hreb.
    rewrite reconstructObj_unfold, Hu, Hf.
    assert (Hrows : exists rows,
      mapO (reconstructObj_row g cluster event) (Rows table) = Done rows).
    { apply mapO_is_Done. eapply Forall_impl; [exact Hreb|].
      intros row Hrow. by apply reconstructObj_row_is_Done. }
    destruct Hrows as [rows ->]. unfold bind. rewrite Hset. cbv beta iota.
    rewrite (setColumnDefinition_two_columns g
               (mkTable (ColumnDefinitions table) rows) cd0 cds w1 _ _ Hcd Hcols1).
    eexists _, _. split; [reflexivity|]. simpl. apply last_columns.
  - intros Hpods. unfold hiddenByDefault, adoptionColumn. rewrite Hpods. simpl. lia.
  - intros Hother. unfold hiddenByDefault, adoptionColumn.
    rewrite (proj2 (String.eqb_neq _ _) Hother). reflexivity.
Qed.

(** C9.  Rendering a pods table stores priority 1 in [podColumns[1]]: a
    change outside the table being rendered, whenever the priority was
    not 1 already.  In list mode the print of a group whose last record
    is a pod makes the change as soon as the records can be rebuilt,
    whatever the printer then does; in watch mode the reconstruction of
    an object under the pods mapping makes it.  No later column setting,
    for any mapping, brings the priority back -- the world it leaves is
    the same world -- and every table with column definitions rendered
    afterwards, of whatever resource type, ends with the adoption column
    at priority 1. *)
Theorem podColumns_priority_sticks m w c0 c1 :
  gvr_Resource (Resource m) = "pods" ->
  podColumns w = [c0; c1] ->
  exists w1,
    setNoAdoption (Some m) w = (Done tt, w1) /\
    podColumns w1 = [c0; mkColumn (Name c1) (Type_ c1) (Format c1) 1] /\
    (Priority c1 <> 1%Z -> podColumns w1 <> podColumns w) /\
    (forall g printer sameKind o ws allErrs,
       last sameKind = Some o -> Mapping (Info_ o) = m ->
       Forall (fun o => exists tb, tableOf o = Some tb /\ rebuildable tb) sameKind ->
       (printGroup g printer sameKind ws allErrs w).2 = w1 /\
       forall p,
         printer = printerFunc p ->
         (forall t, ToUnstructured t = None) ->
         (forall b t, exists text, p b t = Ok text) ->
         exists ws', printGroup g printer sameKind ws allErrs w = (Done (inr ws'), w1)) /\
    (forall g obj cluster event unstr tb,
       asUnstructured obj = Some unstr -> FromUnstructured unstr = Ok tb ->
       rebuildable tb ->
       exists t, reconstructObj g obj (Some m) cluster event w = (Done t, w1)) /\
    (forall g printer sameKind o ws allErrs ws' w',
       last sameKind = Some o -> Mapping (Info_ o) = m ->
       printGroup g printer sameKind ws allErrs w = (Done (inr ws'), w') ->
       w' = w1) /\
    (forall g obj cluster event t w',
       reconstructObj g obj (Some m) cluster event w = (Done t, w') ->
       w' = w1) /\
    forall g mapping' table cd0 cds,
      ColumnDefinitions table = cd0 :: cds ->
      exists t',
        (setNoAdoption mapping';; setColumnDefinition g table) w1 = (Done t', w1) /\
        Rows t' = Rows table /\
        last (ColumnDefinitions t') =
          Some (mkColumn (Name c1) (Type_ c1) (Format c1) 1).
Proof.
  intros Hpods Hcols.
  set (w1 := set_podColumns [c0; mkColumn (Name c1) (Type_ c1) (Format c1) 1] w).
  assert (Hset : setNoAdoption (Some m) w = (Done tt, w1)).
  { unfold setNoAdoption. rewrite Hpods. simpl.
    unfold bind, get_world, modify. simpl. rewrite Hcols. reflexivity. }
  assert (Hcols1 : podColumns w1 = [c0; mkColumn (Name c1) (Type_ c1) (Format c1) 1])
    by reflexivity.
  exists w1. split; [exact Hset|]. split; [reflexivity|].
  split; [|split; [|split; [|split; [|split]]]].
  - simpl. rewrite Hcols. intros Hne [= Heq]. apply Hne. by rewrite <- Heq.
  - intros g printer sameKind o ws allErrs Hlast <- Hall.
    assert (Hrec : exists rows table,
      reconstructionRow sameKind emptyTable
      = Done (rows, Some (Mapping (Info_ o)), table)).
    { destruct (proj2 (reconstructionRow_loop_is_Done sameKind emptyTable [] None) Hall)
        as [[[rows mapping] table] Hr].
      pose proof (reconstructionRow_loop_mapping _ _ _ _ _ _ _ Hr) as Hm.
      rewrite Hlast in Hm. subst mapping. by exists rows, table. }
    destruct Hrec as (rows & table & Hrec).
    assert (Hcd : exists t1,
      setColumnDefinition g (mkTable (ColumnDefinitions table) rows) w1 = (Done t1, w1)).
    { destruct (setColumnDefinition_outcome g
                  (mkTable (ColumnDefinitions table) rows) w1)
        as [(t1 & Ht1 & _)|(msg & Hpanic)]; [by exists t1|].
      exfalso. revert Hpanic. unfold setColumnDefinition. simpl.
      destruct (ColumnDefinitions table); [discriminate|].
      unfold bind, get_world. simpl. discriminate. }
    destruct Hcd as [t1 Ht1].
    split.
    + unfold printGroup. rewrite Hrec. unfold bind at 1. rewrite Hset.
      unfold bind at 1. rewrite Ht1.
      destruct (ToUnstructured t1); [reflexivity|].
      destruct printer as [| |p]; try reflexivity.
      unfold bind, get_world. by destruct (p _ t1).
    + intros p -> Hto Hp.
      unfold printGroup. rewrite Hrec. unfold bind at 1. rewrite Hset.
      unfold bind at 1. rewrite Ht1, Hto. unfold bind, get_world.
      destruct (Hp (outputObjects w1) t1) as [text ->]. by eexists.
  - intros g obj cluster event unstr tb Hu Hf Hreb.
    rewrite reconstructObj_unfold, Hu, Hf.
    assert (Hrows : exists rows,
      mapO (reconstructObj_row g cluster event) (Rows tb) = Done rows).
    { apply mapO_is_Done. eapply Forall_impl; [exact Hreb|].
      intros row Hrow. by apply reconstructObj_row_is_Done. }
    destruct Hrows as [rows ->]. unfold bind. rewrite Hset.
    destruct (setColumnDefinition_outcome g (mkTable (ColumnDefinitions tb) rows) w1)
      as [(t1 & -> & _)|(msg & Hpanic)]; [by eexists|].
    exfalso. revert Hpanic. unfold setColumnDefinition. simpl.
    destruct (ColumnDefinitions tb); [discriminate|].
    unfold bind, get_world. simpl. discriminate.
  - intros g printer sameKind o ws allErrs ws' w' Hlast <- Hprint.
    apply (printGroup_world _ _ _ _ _ _ _ _ _ Hlast) in Hprint. congruence.
  - intros g obj cluster event t w' Hrec.
    apply reconstructObj_world in Hrec. congruence.
  - intros g mapping' table cd0 cds Hcd.
    assert (Hstay : setNoAdoption mapping' w1 = (Done tt, w1)).
    { unfold setNoAdoption. destruct mapping' as [m'|]; [|reflexivity].
      destruct (String.eqb _ _); [|reflexivity]. reflexivity. }
    unfold bind. rewrite Hstay. unfold setColumnDefinition. rewrite Hcd.
    unfold bind, get_world, ret. simpl.
    eexists. split; [reflexivity|]. split; [reflexivity|].
    destruct (OutputWatchEvents g); simpl.
    + rewrite !last_cons, last_app. simpl. reflexivity.
    + rewrite !last_cons, last_app. simpl. reflexivity.
Qed.

(** ** The error list *)








(** ** What a run returns *)


Lemma getObjInfo_returns g f cluster isControlPlane c args w :
  (forall g r w, exists e w', printGeneric g r w = (Done e, w')) ->
  exists c' w',
    getObjInfo printGeneric g f cluster isControlPlane c args w = (Done c', w').
Proof.
  intros Hpg. unfold getObjInfo.
  destruct (RESTClient f); [by eexists _, _|].
  destruct (negb isControlPlane && _); [by eexists _, _|].
  destruct (r_Err _); [by eexists _, _|].
  destruct (Watch g || WatchOnly g); [by eexists _, _|].
  destruct (negb (IsHumanReadablePrinter g)).
  - unfold bind. destruct (Hpg g (Do f g args) w) as (e & w' & ->).
    destruct e; by eexists _, _.
  - destruct (r_Infos _); by eexists _, _.
Qed.

Lemma runTasks_returns g tasks args :
  (forall g r w, exists e w', printGeneric g r w = (Done e, w')) ->
  forall older c w,
    exists c' w', runTasks printGeneric g tasks older c args w = (Done c', w').
Proof.
  intros Hpg. induction tasks as [|[[cluster mf] missed] tasks IH]; intros older c w.
  - by eexists _, _.
  - simpl. unfold bind at 1, runTask, bind.
    destruct (getObjInfo_returns g mf cluster false
                (mkCollected (objs c) (watchObjs c) (readErrs missed (allErrs c) older))
                args w Hpg) as (c1 & w1 & ->).
    unfold ret. apply IH.
Qed.

(** X9.  When it prints json or yaml without watching, and
    [printGeneric] returns, [Run] returns no error as soon as the member
    factories could be built -- whatever the targets answered, and
    whatever errors the tasks put on the list. *)
Theorem generic_output_returns_no_error g f args sched tasks w :
  (forall g r w, exists e w', printGeneric g r w = (Done e, w')) ->
  Watch g || WatchOnly g = false ->
  IsHumanReadablePrinter g = false ->
  memberFactories f (TargetMemberClusters g) = Ok tasks ->
  exists w', Run printGeneric g f args sched w = (Done None, w').
Proof.
  intros Hpg Hwatch Hh Hfs. unfold Run. rewrite Hfs, Hwatch, Hh. simpl.
  unfold bind at 1.
  assert (Hcp : exists c1 w1,
    (if ContainKarmadaScope (OperationScope_ g)
     then getObjInfo printGeneric g (controlPlane f) "Karmada" true
            (mkCollected [] [] []) args
     else ret (mkCollected [] [] [])) w = (Done c1, w1)).
  { destruct (ContainKarmadaScope _); [by apply getObjInfo_returns|by eexists _, _]. }
  destruct Hcp as (c1 & w1 & ->). unfold bind.
  destruct (runTasks_returns g (schedule sched tasks) args Hpg [] c1 w1)
    as (c & w2 & ->).
  by eexists.
Qed.

(** ** Whose records are rendered *)

Lemma getObjInfo_objs_from g f cluster isControlPlane c args w c' w' :
  getObjInfo printGeneric g f cluster isControlPlane c args w = (Done c', w') ->
  forall o, o ∈ objs c' ->
    o ∈ objs c \/ (Cluster o = cluster /\ IsControlPlane o = isControlPlane).
Proof.
  unfold getObjInfo.
  destruct (RESTClient f); [intros [= <- _]; auto|].
  destruct (negb isControlPlane && _); [intros [= <- _]; auto|].
  destruct (r_Err _); [intros [= <- _]; auto|].
  destruct (Watch g || WatchOnly g); [intros [= <- _]; auto|].
  destruct (negb (IsHumanReadablePrinter g)).
  - unfold bind. destruct (printGeneric g _ w) as [[[e|]| | |] w1];
      try discriminate; intros [= <- _]; auto.
  - destruct (r_Infos _) as [infos|e]; intros [= <- _]; [|auto].
    simpl. intros o [Ho|Ho]%elem_of_app; [by left|right].
    apply list_elem_of_fmap in Ho as (i & -> & _). done.
Qed.

Lemma runTask_objs_from g mf cluster missed older c args w c' w' :
  runTask printGeneric g mf cluster missed older c args w = (Done c', w') ->
  forall o, o ∈ objs c' ->
    o ∈ objs c \/ (Cluster o = cluster /\ IsControlPlane o = false).
Proof.
  unfold runTask, bind.
  destruct (getObjInfo printGeneric g mf cluster false _ args w)
    as [[c1| | |] w1] eqn:Hget; try discriminate.
  intros [= <- _] o Ho.
  apply (getObjInfo_objs_from _ _ _ _ _ _ _ _ _ Hget o).
  by destruct (bool_decide _).
Qed.

Lemma runTasks_objs_from g tasks args : forall older c w c' w',
  runTasks printGeneric g tasks older c args w = (Done c', w') ->
  forall o, o ∈ objs c' ->
    o ∈ objs c \/
    (IsControlPlane o = false /\ Cluster o ∈ map (fun t => t.1.1) tasks).
Proof.
  induction tasks as [|[[cluster mf] missed] tasks IH];
    intros older c w c' w' Hrun o Ho.
  - injection Hrun as <- _. by left.
  - simpl in Hrun. unfold bind at 1 in Hrun.
    destruct (runTask printGeneric g mf cluster missed older c args w)
      as [[c1| | |] w1] eqn:Hget; try discriminate.
    destruct (IH _ _ _ _ _ Hrun o Ho) as [Hin|[Hcp Hcl]].
    + destruct (runTask_objs_from _ _ _ _ _ _ _ _ _ _ Hget o Hin) as [?|[<- ?]];
        [by left|right].
      split; [done|]. simpl. apply list_elem_of_here.
    + right. split; [done|]. simpl. by apply list_elem_of_further.
Qed.

Lemma memberFactories_names f clusters : forall tasks,
  memberFactories f clusters = Ok tasks -> map fst tasks = clusters.
Proof.
  induction clusters as [|cluster clusters IH]; simpl; intros tasks Hm.
  - by injection Hm as <-.
  - destruct (FactoryForMemberCluster f cluster); [|discriminate].
    destruct (memberFactories f clusters) as [fs|]; [|discriminate].
    injection Hm as <-. simpl. by rewrite (IH fs).
Qed.

Lemma schedule_names {A B} (fn : A -> B) (sched : Schedule) (tasks : list A) x :
  x ∈ map (fun t => fn t.1) (schedule sched tasks) -> x ∈ map fn tasks.
Proof.
  intros ([t missed] & -> & Ht)%list_elem_of_fmap.
  apply (list_elem_of_fmap_2 fn). by eapply schedule_sound.
Qed.

(** Off the json/yaml path a task returns, leaves the world alone, and
    adds its share to the containers it is given. *)
Lemma getObjInfo_merge g f cluster isControlPlane c args w :
  Watch g || WatchOnly g || IsHumanReadablePrinter g = true ->
  getObjInfo printGeneric g f cluster isControlPlane c args w
  = (Done (merge c (share printGeneric g f cluster isControlPlane args)), w).
Proof.
  intros Hmode. unfold share, getObjInfo, merge, addErr, ret.
  destruct (RESTClient f); [simpl; by rewrite !app_nil_r|].
  destruct (negb isControlPlane && _); [simpl; by rewrite !app_nil_r|].
  destruct (r_Err _); [simpl; by rewrite !app_nil_r|].
  destruct (Watch g || WatchOnly g); [simpl; by rewrite !app_nil_r|].
  simpl in Hmode. rewrite Hmode. simpl.
  destruct (r_Infos _); simpl; by rewrite !app_nil_r.
Qed.

Lemma app_eq_self {A} (l es : list A) : l ++ es = l <-> es = [].
Proof.
  split; [|intros ->; apply app_nil_r]. intros Heq.
  apply (f_equal length) in Heq. rewrite length_app in Heq.
  destruct es; [reflexivity|simpl in Heq; lia].
Qed.

Lemma runTask_merge g mf cluster missed older c args w :
  Watch g || WatchOnly g || IsHumanReadablePrinter g = true ->
  runTask printGeneric g mf cluster missed older c args w
  = (Done (mkCollected
             (objs c ++ objs (share printGeneric g mf cluster false args))
             (watchObjs c ++ watchObjs (share printGeneric g mf cluster false args))
             (if bool_decide (allErrs (share printGeneric g mf cluster false args) = [])
              then allErrs c
              else readErrs missed (allErrs c) older
                   ++ allErrs (share printGeneric g mf cluster false args))), w).
Proof.
  intros Hmode. unfold runTask, bind. rewrite getObjInfo_merge by exact Hmode.
  unfold ret, merge. cbn [objs watchObjs allErrs].
  rewrite (bool_decide_ext _ _ (app_eq_self _ _)).
  by destruct (bool_decide _).
Qed.

Lemma runTasks_merge g args tasks :
  Watch g || WatchOnly g || IsHumanReadablePrinter g = true ->
  forall older c w,
    runTasks printGeneric g tasks older c args w
    = (Done (mkCollected
               (objs c ++ flat_map
                  (fun t => objs (share printGeneric g t.1.2 t.1.1 false args)) tasks)
               (watchObjs c ++ flat_map
                  (fun t => watchObjs (share printGeneric g t.1.2 t.1.1 false args)) tasks)
               (raced (map (fun t => (allErrs (share printGeneric g t.1.2 t.1.1 false args),
                                      t.2)) tasks)
                      older (allErrs c))), w).
Proof.
  intros Hmode. induction tasks as [|[[cluster mf] missed] tasks IH]; intros older c w.
  - destruct c. simpl. by rewrite !app_nil_r.
  - cbn [runTasks]. unfold bind. rewrite runTask_merge by exact Hmode.
    rewrite IH. cbn [objs watchObjs allErrs flat_map map raced fst snd].
    by rewrite <- !app_assoc.
Qed.

(** X10.  Every record that a human-readable listing hands to the
    render belongs to a target that was asked for, in whatever order
    (and however often) the tasks take effect: a record marked as of the
    control plane carries the name Karmada and the control plane is in
    scope, and any other record carries the name of one of the target
    member clusters. *)
Theorem rendered_records_are_from_targets g f args sched tasks w :
  Watch g || WatchOnly g = false ->
  IsHumanReadablePrinter g = true ->
  memberFactories f (TargetMemberClusters g) = Ok tasks ->
  exists c,
    Run printGeneric g f args sched w
    = (do allErrs <- printObjs g (sort_Slice Obj lessResource (objs c)) (allErrs c);
       ret (NewAggregate allErrs)) w /\
    Forall (fromTargets g) (sort_Slice Obj lessResource (objs c)).
Proof.
  intros Hwatch Hh Hfs.
  assert (Hmode : Watch g || WatchOnly g || IsHumanReadablePrinter g = true)
    by (by rewrite Hwatch, Hh).
  unfold Run. rewrite Hfs, Hwatch, Hh. simpl.
  set (c0 := mkCollected [] [] []).
  assert (Hcp : exists c1,
    (if ContainKarmadaScope (OperationScope_ g)
     then getObjInfo printGeneric g (controlPlane f) "Karmada" true c0 args
     else ret c0) w = (Done c1, w) /\
    Forall (fromTargets g) (objs c1)).
  { destruct (ContainKarmadaScope _) eqn:Hscope.
    - pose proof (getObjInfo_merge g (controlPlane f) "Karmada" true c0 args w Hmode)
        as Hrun.
      eexists. split; [exact Hrun|]. apply Forall_forall. intros o Ho.
      destruct (getObjInfo_objs_from _ _ _ _ _ _ _ _ _ Hrun o Ho) as [Hin|[Hcl Hcp]].
      + by apply elem_of_nil in Hin.
      + unfold fromTargets. by rewrite Hcp, Hscope.
    - exists c0. split; [reflexivity|constructor]. }
  destruct Hcp as (c1 & Hrun1 & Hfrom1).
  pose proof (runTasks_merge g args (schedule sched tasks) Hmode [] c1 w) as Hrun.
  eexists. split.
  - unfold bind at 1. rewrite Hrun1. unfold bind at 1. by rewrite Hrun.
  - rewrite sort_Slice_perm. apply Forall_forall. intros o Ho.
    destruct (runTasks_objs_from _ _ _ _ _ _ _ _ Hrun o Ho) as [Hin|[Hcp Hcl]].
    + by apply (proj1 (Forall_forall _ _) Hfrom1).
    + unfold fromTargets. rewrite Hcp.
      apply (schedule_names fst) in Hcl.
      by rewrite (memberFactories_names _ _ _ Hfs) in Hcl.
Qed.

(** ** The order in which the tasks end *)

Lemma schedule_fst {A} (sched : Schedule) (tasks : list A) :
  map fst (schedule sched tasks) = omap (fun i => tasks !! i) (map task sched).
Proof.
  unfold schedule. induction sched as [|s sched IH]; [reflexivity|].
  cbn [omap map list_omap]. destruct (tasks !! task s); simpl; by rewrite IH.
Qed.

Lemma flat_map_fst {A B C} (fn : A -> list C) (l : list (A * B)) :
  flat_map (fun t => fn t.1) l = flat_map fn (map fst l).
Proof. induction l as [|t l IH]; simpl; [reflexivity|by rewrite IH]. Qed.

(** Appends that do not overlap lose nothing. *)
Lemma raced_promptly appends : forall older now,
  Forall (fun a => a.2 = 0) appends ->
  raced appends older now = now ++ flat_map fst appends.
Proof.
  induction appends as [|[es missed] appends IH]; intros older now Hp; simpl.
  - by rewrite app_nil_r.
  - apply Forall_cons in Hp as [Hm Hp]. simpl in Hm. subst missed.
    rewrite IH by exact Hp. case_bool_decide as He.
    + subst es. reflexivity.
    + unfold readErrs. simpl. by rewrite <- app_assoc.
Qed.

Lemma readErrs_elem missed now older : readErrs missed now older ∈ now :: older.
Proof.
  unfold readErrs. destruct ((now :: older) !! missed) as [l|] eqn:Hl; simpl.
  - apply list_elem_of_lookup. eauto.
  - destruct (last (now :: older)) as [l|] eqn:Hlast; simpl.
    + by apply last_Some_elem_of.
    + apply list_elem_of_here.
Qed.

(** Whatever the overlaps, nothing but the errors appended gets on the
    list, and none of them twice. *)
Lemma raced_submseteq appends : forall older now acc,
  Forall (fun l => l ⊆+ acc) (now :: older) ->
  raced appends older now ⊆+ acc ++ flat_map fst appends.
Proof.
  induction appends as [|[es missed] appends IH]; intros older now acc Hall; simpl.
  - rewrite app_nil_r. by apply Forall_cons in Hall as [? _].
  - rewrite app_assoc. apply IH.
    assert (Hmono : Forall (fun l => l ⊆+ acc ++ es) (now :: older)).
    { eapply Forall_impl; [exact Hall|]. intros l Hl. simpl.
      by apply submseteq_inserts_r. }
    constructor; [|exact Hmono]. case_bool_decide as He.
    + by apply Forall_cons in Hmono as [? _].
    + apply submseteq_app; [|reflexivity].
      apply (proj1 (Forall_forall _ _) Hall). apply readErrs_elem.
Qed.

(** X11.  When watching or listing in human-readable form, the order in
    which the member tasks end changes the records and the watch handles
    collected by a permutation only.  So it does the errors when no two
    appends to the error list overlap; an append that overlaps another
    can only make the list lose errors. *)
Theorem collection_independent_of_task_order g tasks args
    (sched1 sched2 : Schedule) c w :
  Watch g || WatchOnly g || IsHumanReadablePrinter g = true ->
  map task sched1 ≡ₚ map task sched2 ->
  exists c1 c2,
    runTasks printGeneric g (schedule sched1 tasks) [] c args w = (Done c1, w) /\
    runTasks printGeneric g (schedule sched2 tasks) [] c args w = (Done c2, w) /\
    objs c1 ≡ₚ objs c2 /\ watchObjs c1 ≡ₚ watchObjs c2 /\
    (Forall (fun s => missed s = 0) sched1 -> allErrs c2 ⊆+ allErrs c1) /\
    (Forall (fun s => missed s = 0) sched1 ->
     Forall (fun s => missed s = 0) sched2 -> allErrs c1 ≡ₚ allErrs c2).
Proof.
  intros Hmode Hperm.
  assert (Hs : map fst (schedule sched1 tasks) ≡ₚ map fst (schedule sched2 tasks)).
  { rewrite !schedule_fst. by apply omap_Permutation. }
  assert (Hprompt : forall sched : Schedule,
    Forall (fun s => missed s = 0) sched ->
    Forall (fun a : list error * nat => a.2 = 0)
      (map (fun t => (allErrs (share printGeneric g t.1.2 t.1.1 false args), t.2))
           (schedule sched tasks))).
  { intros sched Hp. apply Forall_fmap. unfold schedule. apply Forall_forall.
    intros [t m] (s & Hin & Hs')%list_elem_of_omap.
    destruct (tasks !! task s); [|discriminate]. injection Hs' as <- <-.
    simpl. by apply (proj1 (Forall_forall _ _) Hp). }
  assert (Herrs : forall sched : Schedule,
    flat_map fst (map (fun t => (allErrs (share printGeneric g t.1.2 t.1.1 false args),
                                 t.2)) (schedule sched tasks))
    = flat_map (fun t => allErrs (share printGeneric g t.2 t.1 false args))
               (map fst (schedule sched tasks))).
  { intros sched. induction (schedule sched tasks) as [|t l IH]; simpl;
      [reflexivity|by rewrite IH]. }
  assert (Hsame : flat_map (fun t => allErrs (share printGeneric g t.2 t.1 false args))
                           (map fst (schedule sched2 tasks))
                  ≡ₚ flat_map (fun t => allErrs (share printGeneric g t.2 t.1 false args))
                           (map fst (schedule sched1 tasks))).
  { by apply Permutation_flat_map. }
  assert (Hsub : forall sa sb : Schedule,
    flat_map (fun t => allErrs (share printGeneric g t.2 t.1 false args))
             (map fst (schedule sb tasks))
    ≡ₚ flat_map (fun t => allErrs (share printGeneric g t.2 t.1 false args))
             (map fst (schedule sa tasks)) ->
    Forall (fun s => missed s = 0) sa ->
    raced (map (fun t => (allErrs (share printGeneric g t.1.2 t.1.1 false args), t.2))
               (schedule sb tasks)) [] (allErrs c)
    ⊆+ raced (map (fun t => (allErrs (share printGeneric g t.1.2 t.1.1 false args), t.2))
               (schedule sa tasks)) [] (allErrs c)).
  { intros sa sb Hab Hp. rewrite (raced_promptly _ _ _ (Hprompt sa Hp)).
    rewrite Herrs, <- Hab, <- Herrs. apply raced_submseteq.
    by repeat constructor. }
  eexists _, _.
  split; [apply (runTasks_merge g args _ Hmode)|].
  split; [apply (runTasks_merge g args _ Hmode)|].
  cbn [objs watchObjs allErrs].
  split; [|split; [|split]].
  - apply Permutation_app_head.
    rewrite (flat_map_fst (fun t => objs (share printGeneric g t.2 t.1 false args))).
    rewrite (flat_map_fst (fun t => objs (share printGeneric g t.2 t.1 false args))
               (schedule sched2 tasks)).
    by apply Permutation_flat_map.
  - apply Permutation_app_head.
    rewrite (flat_map_fst (fun t => watchObjs (share printGeneric g t.2 t.1 false args))).
    rewrite (flat_map_fst (fun t => watchObjs (share printGeneric g t.2 t.1 false args))
               (schedule sched2 tasks)).
    by apply Permutation_flat_map.
  - intros Hp1. by apply Hsub.
  - intros Hp1 Hp2. apply (anti_symm submseteq).
    + apply Hsub; [by symmetry|exact Hp2].
    + by apply Hsub.
Qed.


(** ** What [watch] returns *)

Lemma nothingShown_refl w : nothingShown w w.
Proof. by repeat split. Qed.

Lemma nothingShown_trans w1 w2 w3 :
  nothingShown w1 w2 -> nothingShown w2 w3 -> nothingShown w1 w3.
Proof.
  unfold nothingShown. intros (-> & -> & ->) (-> & -> & ->). by repeat split.
Qed.

Lemma reconstructObj_nothingShown g obj mapping cluster event w o w' :
  reconstructObj g obj mapping cluster event w = (o, w') -> nothingShown w w'.
Proof.
  rewrite reconstructObj_unfold.
  destruct (asUnstructured obj) as [unstr|];
    [|intros [= _ <-]; apply nothingShown_refl].
  destruct (FromUnstructured unstr) as [table|e];
    [|intros [= _ <-]; apply nothingShown_refl].
  destruct (mapO _ (Rows table)) as [rows| | |];
    try (intros [= _ <-]; apply nothingShown_refl).
  unfold bind.
  destruct (setNoAdoption_outcome mapping w)
    as [(w1 & -> & Ho & He & Hs & _)|(msg & ->)];
    [|intros [= _ <-]; apply nothingShown_refl].
  destruct (setColumnDefinition_outcome g (mkTable (ColumnDefinitions table) rows) w1)
    as [(t1 & -> & _)|(msg & ->)]; intros [= _ <-]; by repeat split.
Qed.

Lemma printCurrent_objs_nothingShown g mapping printer idx cluster objsToPrint :
  forall buf w o w',
    printCurrent_objs g mapping printer idx cluster objsToPrint buf w = (o, w') ->
    nothingShown w w'.
Proof.
  induction objsToPrint as [|obj rest IH]; simpl; intros buf w o w'.
  - intros [= _ <-]. apply nothingShown_refl.
  - unfold bind at 1.
    destruct (reconstructObj g obj mapping cluster "ADDED" w) as [[t| | |] w1] eqn:Hr;
      apply reconstructObj_nothingShown in Hr;
      try (by intros [= _ <-]).
    destruct (ToUnstructured _); [by intros [= _ <-]|].
    unfold bind, get_world.
    destruct (printer _ _) as [text|err]; [|by intros [= _ <-]].
    intros Hrest. apply IH in Hrest. by eapply nothingShown_trans.
Qed.

Lemma printCurrent_nothingShown g mapping printer watchObjs :
  forall idx buf w o w',
    printCurrent g mapping printer idx watchObjs buf w = (o, w') ->
    nothingShown w w'.
Proof.
  induction watchObjs as [|watchObj rest IH]; simpl; intros idx buf w o w'.
  - intros [= _ <-]. apply nothingShown_refl.
  - destruct (r_Object _) as [obj|err]; [|intros [= _ <-]; apply nothingShown_refl].
    unfold bind.
    destruct (printCurrent_objs _ _ _ _ _ _ _ w) as [[buf1| | |] w1] eqn:Hc;
      apply printCurrent_objs_nothingShown in Hc;
      try (by intros [= _ <-]).
    intros Hrest. apply IH in Hrest. by eapply nothingShown_trans.
Qed.

Lemma printCurrent_objs_not_blocked g mapping printer idx cluster objsToPrint :
  forall buf w o w',
    printCurrent_objs g mapping printer idx cluster objsToPrint buf w = (o, w') ->
    o <> Blocked.
Proof.
  induction objsToPrint as [|obj rest IH]; simpl; intros buf w o w'.
  - by intros [= <- _].
  - unfold bind at 1.
    pose proof (reconstructObj_not_blocked g obj mapping cluster "ADDED" w) as Hnb.
    destruct (reconstructObj g obj mapping cluster "ADDED" w) as [[t| | |] w1];
      simpl in Hnb; try (by intros [= <- _]).
    destruct (ToUnstructured _); [by intros [= <- _]|].
    unfold bind, get_world.
    destruct (printer _ _) as [text|err]; [|by intros [= <- _]].
    apply IH.
Qed.

Lemma printCurrent_not_blocked g mapping printer watchObjs :
  forall idx buf w o w',
    printCurrent g mapping printer idx watchObjs buf w = (o, w') -> o <> Blocked.
Proof.
  induction watchObjs as [|watchObj rest IH]; simpl; intros idx buf w o w'.
  - by intros [= <- _].
  - destruct (r_Object _) as [obj|err]; [|by intros [= <- _]].
    unfold bind.
    destruct (printCurrent_objs _ _ _ _ _ _ _ w) as [[buf1| | |] w1] eqn:Hc;
      try (by intros [= <- _]).
    + apply IH.
    + by apply printCurrent_objs_not_blocked in Hc.
Qed.

Lemma goEach_outcome g mapping printer watchObjs : forall w,
  (exists w', goEach (watchGoroutine g mapping printer) watchObjs w = (Done tt, w')) \/
  (exists msg w',
     goEach (watchGoroutine g mapping printer) watchObjs w = (Panic msg, w')).
Proof.
  induction watchObjs as [|watchObj rest IH]; simpl; intros w.
  - left. by exists w.
  - unfold bind.
    destruct (watchGoroutine_outcome g mapping printer watchObj w)
      as [(w1 & ->)|(msg & w1 & ->)]; [apply IH|right; by eexists _, _].
Qed.



Lemma onEvent_streams g mapping printer cluster e w o w' :
  onEvent g mapping printer cluster e w = (o, w') ->
  Subscribed w' = Subscribed w /\ ErrOut w' = ErrOut w.
Proof.
  unfold onEvent, bind at 1.
  destruct (reconstructObj g (ev_Object e) mapping cluster (ev_Type e) w)
    as [[t| | |] w1] eqn:Hr;
    apply reconstructObj_nothingShown in Hr as (_ & He & Hs);
    try (by intros [= _ <-]).
  destruct (ToUnstructured _); [by intros [= _ <-]|].
  unfold bind at 1, get_world.
  destruct (printer _ _) as [text|err]; [|by intros [= _ <-]].
  unfold flushOut, bind, modify, ret.
  destruct (_ =? _)%nat; by intros [= _ <-].
Qed.

Lemma UntilWithoutRetry_streams g mapping printer cluster events :
  forall w o w',
    UntilWithoutRetry (onEvent g mapping printer cluster) events w = (o, w') ->
    Subscribed w' = Subscribed w /\ ErrOut w' = ErrOut w.
Proof.
  induction events as [|e events IH]; simpl; intros w o w'.
  - by intros [= _ <-].
  - unfold bind.
    destruct (onEvent g mapping printer cluster e w) as [[[]| | |] w1] eqn:He;
      apply onEvent_streams in He as [Hs Her];
      try (by intros [= _ <-]).
    intros Hrest. apply IH in Hrest as [-> ->]. done.
Qed.

Lemma watchGoroutine_streams g mapping printer watchObj w o w' :
  watchGoroutine g mapping printer watchObj w = (o, w') ->
  ErrOut w' = ErrOut w /\
  (Subscribed w' = Subscribed w \/
   Subscribed w' = Subscribed w ++ [WatchObj_Cluster watchObj]) /\
  (o = Done tt -> Subscribed w' = Subscribed w ++ [WatchObj_Cluster watchObj]).
Proof.
  rewrite watchGoroutine_eq.
  destruct (r_Object _) as [obj|err];
    [|intros [= <- <-]; split; [done|]; split; [by left|discriminate]].
  destruct (startVersion obj) as [rv|err];
    [|intros [= <- <-]; split; [done|]; split; [by left|discriminate]].
  destruct (r_Watch _ rv) as [events|err];
    [|intros [= <- <-]; split; [done|]; split; [by left|discriminate]].
  unfold discard.
  match goal with |- context [UntilWithoutRetry ?c ?ev ?w0] =>
    destruct (UntilWithoutRetry c ev w0) as [[[]| | |] w1] eqn:Hu;
    apply UntilWithoutRetry_streams in Hu as [Hs He]
  end; simpl in *; intros [= <- <-]; rewrite He, Hs; auto.
Qed.

Lemma goEach_streams g mapping printer watchObjs : forall w o w',
  goEach (watchGoroutine g mapping printer) watchObjs w = (o, w') ->
  ErrOut w' = ErrOut w /\
  (exists k, Subscribed w' = Subscribed w ++ map WatchObj_Cluster (take k watchObjs)) /\
  (o = Done tt -> Subscribed w' = Subscribed w ++ map WatchObj_Cluster watchObjs).
Proof.
  induction watchObjs as [|watchObj rest IH]; simpl; intros w o w'.
  - intros [= <- <-]. split; [done|]. rewrite app_nil_r.
    split; [exists 0; simpl; by rewrite app_nil_r|done].
  - unfold bind.
    destruct (watchGoroutine g mapping printer watchObj w) as [o1 w1] eqn:Hg.
    apply watchGoroutine_streams in Hg as (He & Hs & Hd).
    assert (Hstop : o <> Done tt -> w' = w1 ->
      ErrOut w' = ErrOut w /\
      (exists k, Subscribed w' = Subscribed w
                  ++ map WatchObj_Cluster (take k (watchObj :: rest))) /\
      (o = Done tt -> Subscribed w' = Subscribed w
                  ++ WatchObj_Cluster watchObj :: map WatchObj_Cluster rest)).
    { intros Hn ->. split; [done|]. split; [|done].
      destruct Hs as [->| ->]; [exists 0|exists 1]; simpl; by rewrite ?app_nil_r. }
    destruct o1 as [[]| | |]; try (intros [= <- <-]; by apply Hstop).
    intros Hrest. apply IH in Hrest as (He' & [k Hk] & Hd').
    rewrite (Hd eq_refl) in Hk, Hd'.
    split; [congruence|]. split.
    + exists (S k). simpl. by rewrite Hk, <- app_assoc.
    + intros Ho. by rewrite (Hd' Ho), <- app_assoc.
Qed.

Lemma watch_streams g wos w o w' :
  watch g wos w = (o, w') ->
  ErrOut w' = ErrOut w /\
  (exists k, Subscribed w' = Subscribed w ++ map WatchObj_Cluster (take k wos)) /\
  (o = Blocked -> Subscribed w' = Subscribed w ++ map WatchObj_Cluster wos).
Proof.
  assert (Hquiet : forall w1, nothingShown w w1 -> o <> Blocked -> w' = w1 ->
    ErrOut w' = ErrOut w /\
    (exists k, Subscribed w' = Subscribed w ++ map WatchObj_Cluster (take k wos)) /\
    (o = Blocked -> Subscribed w' = Subscribed w ++ map WatchObj_Cluster wos)).
  { intros w1 (_ & He & Hs) Hn ->. split; [done|]. split; [|done].
    exists 0. rewrite take_0. simpl. by rewrite app_nil_r. }
  unfold watch. destruct wos as [|first rest].
  { intros [= <- <-]. by apply (Hquiet w); [apply nothingShown_refl| |]. }
  destruct (r_Infos _) as [infos|err].
  2:{ intros [= <- <-]. by apply (Hquiet w); [apply nothingShown_refl| |]. }
  destruct (multipleGVKsRequested _).
  { intros [= <- <-]. by apply (Hquiet w); [apply nothingShown_refl| |]. }
  destruct infos as [|info infos].
  { intros [= <- <-]. by apply (Hquiet w); [apply nothingShown_refl| |]. }
  unfold bind at 1, modify.
  destruct (ToPrinter g _ _ _ _) as [printer|err].
  2:{ intros [= <- <-]. by eapply Hquiet; [| |reflexivity]. }
  unfold bind at 1.
  destruct (printCurrent _ _ _ _ _ _ _) as [o1 w1] eqn:Hp.
  pose proof (printCurrent_not_blocked _ _ _ _ _ _ _ _ _ Hp) as Hnb.
  apply printCurrent_nothingShown in Hp. change (nothingShown w w1) in Hp.
  destruct o1 as [buf| | |]; try (intros [= <- <-]; by eapply Hquiet).
  unfold bind at 1.
  destruct (flushOut buf w1) as [o2 w2] eqn:Hf.
  assert (Hf2 : o2 = Done tt /\ ErrOut w2 = ErrOut w1 /\ Subscribed w2 = Subscribed w1).
  { unfold flushOut, ret, modify in Hf. by destruct (_ =? _)%nat; injection Hf as <- <-. }
  destruct Hf2 as (-> & He2 & Hs2). destruct Hp as (_ & He1 & Hs1).
  unfold watchMultiClusterObj, bind.
  destruct (goEach (watchGoroutine g (Some (Mapping info)) printer) (first :: rest) w2)
    as [o3 w3] eqn:Hg.
  pose proof Hg as Hg'. apply goEach_streams in Hg' as (He3 & [k Hk] & Hd3).
  cbn [length Nat.eqb].
  assert (Hall : ErrOut w3 = ErrOut w /\
    exists k, Subscribed w3 = Subscribed w ++ map WatchObj_Cluster (take k (first :: rest))).
  { split; [congruence|]. exists k. rewrite Hk. congruence. }
  destruct (goEach_outcome g (Some (Mapping info)) printer (first :: rest) w2)
    as [(wx & Hx)|(msg & wx & Hx)]; rewrite Hx in Hg; injection Hg as <- <-;
    intros [= <- <-]; (split; [apply Hall|]; split; [apply Hall|]);
    try discriminate.
  intros _. rewrite (Hd3 eq_refl). congruence.
Qed.


(** X14.  [watch] writes nothing to the error stream, however it ends.
    The watches it has opened are, up to order, watches of its handles,
    each opened at most once; and when it ends up waiting, they are, up
    to order, the watches of all the handles -- also of those whose
    event handling failed.  The same holds of the goroutines run one
    after the other in any order of the handles. *)
Theorem watch_opens_every_stream g wos w o w' :
  watch g wos w = (o, w') ->
  ErrOut w' = ErrOut w /\
  (exists opened, Subscribed w' = Subscribed w ++ opened /\
                  opened ⊆+ map WatchObj_Cluster wos) /\
  (o = Blocked ->
   exists opened, Subscribed w' = Subscribed w ++ opened /\
                  opened ≡ₚ map WatchObj_Cluster wos) /\
  (forall mapping printer order w0 o1 w1,
     order ≡ₚ wos ->
     goEach (watchGoroutine g mapping printer) order w0 = (o1, w1) ->
     ErrOut w1 = ErrOut w0 /\
     exists opened, Subscribed w1 = Subscribed w0 ++ opened /\
                    opened ⊆+ map WatchObj_Cluster wos /\
                    (o1 = Done tt -> opened ≡ₚ map WatchObj_Cluster wos)).
Proof.
  intros Hw. apply watch_streams in Hw as (He & [k Hk] & Hb).
  split; [exact He|]. split; [|split].
  - eexists. split; [exact Hk|]. apply fmap_submseteq, submseteq_take.
  - intros Ho. eexists. split; [exact (Hb Ho)|reflexivity].
  - intros mapping printer order w0 o1 w1 Hperm Hg.
    apply goEach_streams in Hg as (He1 & [k1 Hk1] & Hd).
    split; [exact He1|]. exists (map WatchObj_Cluster (take k1 order)).
    split; [exact Hk1|]. split.
    + rewrite <- Hperm. apply fmap_submseteq, submseteq_take.
    + intros Ho. apply Hd in Ho. rewrite Hk1 in Ho.
      apply app_inv_head in Ho. rewrite Ho. by rewrite Hperm.
Qed.


(** ** The cluster scope *)

(** X13.  With the control plane as operation scope,
    [HandleClusterScopeFlags] returns no error and empties the target
    list, whatever [--clusters] says and whether or not the clusters of
    the registry can be listed; the run that follows asks for no member
    factory and starts no member task: it is the same for any two
    factories that agree on the control plane, and for any schedule. *)
Theorem control_plane_scope_contacts_no_member Clusters clusterList g :
  OperationScope_ g = KarmadaControlPlane ->
  exists g',
    HandleClusterScopeFlags Clusters clusterList g = (g', None) /\
    TargetMemberClusters g' = [] /\
    forall f f' args sched sched' w,
      controlPlane f = controlPlane f' ->
      Run printGeneric g' f args sched w = Run printGeneric g' f' args sched' w.
Proof.
  intros Hscope. exists (with_TargetMemberClusters [] g).
  split; [unfold HandleClusterScopeFlags; by rewrite Hscope|].
  split; [reflexivity|].
  intros f f' args sched sched' w Hcp. unfold Run. simpl.
  rewrite !schedule_nil, Hcp. reflexivity.
Qed.

End Further.

(** * The fan-out, with the json/yaml path of the file *)

Section FanOut.
Context `{Deps}.















End FanOut.

(** * The code on examples *)

Section Examples.
Import Sample.

(** C1 (divergence).  A pod of the control plane, without labels: the
    watch-mode reconstruction gives it the adoption cell N, where the
    list-mode reconstruction of the same pod gives it the cell for
    "not applicable"; so does a whole run of [get pods] on the control
    plane, with [--watch] and without. *)
Theorem watch_adoption_cell_of_control_plane :
  cellsOf (reconstructObj (options KarmadaControlPlane [] true)
             (Object (item podsMapping "web" "{}")) (Some podsMapping)
             "Karmada" "ADDED" world_init)
  = [[CellString "web"; CellString "Karmada"; CellString "5d"; CellString "N"]] /\
  reconstructionRow_row (mkObj "Karmada" true (item podsMapping "web" "{}"))
    (mkRow [CellString "web"; CellString "5d"] "{}")
  = Done (mkRow [CellString "web"; CellString "Karmada"; CellString "5d";
                 CellAdoption notApplicable] "{}") /\
  Out (Run noGeneric (options KarmadaControlPlane [] true) karmadaOnly
         ["pods"] [] world_init).2
  = [header "1" +:+ "web Karmada 5d N" +:+ LF] /\
  Out (Run noGeneric (options KarmadaControlPlane [] false) karmadaOnly
         ["pods"] [] world_init).2
  = [header "1" +:+ "web Karmada 5d -" +:+ LF].
Proof. repeat split; vm_compute; reflexivity. Qed.

(** A managed pod of member1, in list mode and in watch mode with the
    event cell off. *)
Lemma reconstructed_rows_shape_witness :
  exists rows m t tw w',
    reconstructionRow [mkObj "member1" false (item podsMapping "web" managed)]
      emptyTable = Done (rows, m, t) /\
    reconstructObj (options Members ["member1"] true)
      (Object (item podsMapping "web" managed)) (Some podsMapping)
      "member1" "ADDED" world_init = (Done tw, w') /\
    Forall (listRow [mkObj "member1" false (item podsMapping "web" managed)]) rows /\
    Forall2 (rowShape (eventCells (options Members ["member1"] true) "ADDED")
               "member1" watchAdoptionCell)
      [mkRow [CellString "web"; CellString "5d"] managed] (Rows tw).
Proof.
  eexists _, _, _, _, _.
  split; [vm_compute; reflexivity|]. split; [vm_compute; reflexivity|].
  eapply (reconstructed_rows_shape (options Members ["member1"] true)
            [mkObj "member1" false (item podsMapping "web" managed)] emptyTable
            _ _ _ (Object (item podsMapping "web" managed)) _
            (mkTable nameColumns [mkRow [CellString "web"; CellString "5d"] managed])
            (Some podsMapping) "member1" "ADDED" world_init);
    vm_compute; reflexivity.
Defined.

(** C2, as stated, fails on a row whose document does not unmarshal: of
    its two cells the list-mode reconstruction makes three, and so does
    the watch-mode one (the event cell being off), not four. *)
Lemma reconstructed_row_without_adoption_cell :
  reconstructionRow_row (mkObj "member1" false (item podsMapping "web" ""))
    (mkRow [CellString "web"; CellString "5d"] "")
  = Done (mkRow [CellString "web"; CellString "member1"; CellString "5d"] "") /\
  cellsOf (reconstructObj (options Members ["member1"] true)
             (Object (item podsMapping "web" "")) (Some podsMapping)
             "member1" "ADDED" world_init)
  = [[CellString "web"; CellString "member1"; CellString "5d"]] /\
  length [CellString "web"; CellString "member1"; CellString "5d"]
  <> length [CellString "web"; CellString "5d"] + 2.
Proof. repeat split; try (vm_compute; reflexivity). simpl. lia. Qed.

(** C3, as stated, fails on every listing: in the default view the
    table of pods is printed without the adoption column, and the table
    of another resource type, here services, is printed with it --
    unless a table of pods was rendered before it. *)
Lemma pods_adoption_column_left_out_by_default :
  Run printGeneric (narrow Members ["member1"]) oneMember ["pods"] [0] world_init
  = (Done None,
     set_podColumns [mkColumn "CLUSTER" "string" "" 0;
                     mkColumn "ADOPTION" "string" "" 1]
       (write_Out ("NAME CLUSTER AGE" +:+ LF +:+ "web member1 5d" +:+ LF) world_init)) /\
  Run printGeneric (narrow Members ["member1"]) servicesOnly ["services"] [0]
    world_init
  = (Done None,
     write_Out ("NAME CLUSTER AGE ADOPTION" +:+ LF +:+ "db member1 5d N" +:+ LF)
       world_init) /\
  Out (Run printGeneric (narrow Members ["member1"]) podsAndServices
         ["pods,services"] [0] world_init).2
  = ["NAME CLUSTER AGE" +:+ LF +:+ "web member1 5d" +:+ LF; LF;
     "NAME CLUSTER AGE" +:+ LF +:+ "db member1 5d" +:+ LF].
Proof. repeat split; vm_compute; reflexivity. Qed.

(** The table of a pod and the table of a service, each rendered in the
    initial world. *)
Lemma adoption_priority_by_resource_witness :
  ((exists t' w',
      (setNoAdoption (Some podsMapping);;
       setColumnDefinition (options Members ["member1"] false) webTable) world_init
      = (Done t', w') /\
      last (ColumnDefinitions t') = Some (mkColumn "ADOPTION" "string" "" 1)) /\
   hiddenByDefault (mkColumn "ADOPTION" "string" "" 1)) /\
  ((exists t' w',
      (setNoAdoption (Some servicesMapping);;
       setColumnDefinition (options Members ["member1"] false) webTable) world_init
      = (Done t', w') /\
      last (ColumnDefinitions t') = Some (mkColumn "ADOPTION" "string" "" 0)) /\
   ~ hiddenByDefault (mkColumn "ADOPTION" "string" "" 0)).
Proof.
  split.
  - destruct (adoption_priority_by_resource
                (options Members ["member1"] false) podsMapping webTable
                (mkColumn "NAME" "string" "name" 0) [mkColumn "AGE" "string" "" 0]
                world_init (mkColumn "CLUSTER" "string" "" 0)
                (mkColumn "ADOPTION" "string" "" 0) eq_refl eq_refl)
      as (Hlast & _ & Hpods & _).
    split; [exact Hlast|exact (Hpods eq_refl)].
  - destruct (adoption_priority_by_resource
                (options Members ["member1"] false) servicesMapping webTable
                (mkColumn "NAME" "string" "name" 0) [mkColumn "AGE" "string" "" 0]
                world_init (mkColumn "CLUSTER" "string" "" 0)
                (mkColumn "ADOPTION" "string" "" 0) eq_refl eq_refl)
      as (Hlast & _ & _ & Hother).
    split; [exact Hlast|].
    intros Hhidden. apply (proj1 (Hother ltac:(discriminate))) in Hhidden.
    by apply Hhidden.
Defined.

(** The pods mapping in the initial world: the print of the group of
    one managed pod, and the reconstruction of the same pod in watch
    mode, both leave priority 1 behind. *)
Lemma podColumns_priority_sticks_witness :
  exists w1,
    setNoAdoption (Some podsMapping) world_init = (Done tt, w1) /\
    podColumns w1 = [mkColumn "CLUSTER" "string" "" 0; mkColumn "ADOPTION" "string" "" 1] /\
    podColumns w1 <> podColumns world_init /\
    printGroup (options Members ["member1"] false) (printerFunc (show false))
      [webOfMember1] (mkWriters 0 false "") [] world_init
    = (Done (inr (mkWriters 0 false (header "1" +:+ "web member1 5d Y" +:+ LF))), w1) /\
    (exists t,
       reconstructObj (options Members ["member1"] true)
         (Object (item podsMapping "web" managed)) (Some podsMapping)
         "member1" "ADDED" world_init = (Done t, w1)) /\
    exists t',
      (setNoAdoption (Some servicesMapping);;
       setColumnDefinition (options Members ["member1"] false) webTable) w1
      = (Done t', w1) /\
      Rows t' = Rows webTable /\
      last (ColumnDefinitions t') = Some (mkColumn "ADOPTION" "string" "" 1).
Proof.
  destruct (podColumns_priority_sticks podsMapping world_init
              (mkColumn "CLUSTER" "string" "" 0) (mkColumn "ADOPTION" "string" "" 0)
              eq_refl eq_refl)
    as (w1 & Hset & Hcols & Hchanged & Hgroup & Hwatch & _ & _ & Hlater).
  exists w1. split; [exact Hset|]. split; [exact Hcols|].
  split; [apply Hchanged; discriminate|].
  split; [|split].
  - assert (Hall : Forall (fun o => exists tb, tableOf o = Some tb /\ rebuildable tb)
                     [webOfMember1]).
    { constructor; [|constructor].
      exists webTable. split; [reflexivity|].
      constructor; [discriminate|constructor]. }
    destruct (Hgroup (options Members ["member1"] false) (printerFunc (show false))
                [webOfMember1] webOfMember1 (mkWriters 0 false "") []
                eq_refl eq_refl Hall) as [Hw _].
    rewrite <- Hw. vm_compute. reflexivity.
  - apply (Hwatch (options Members ["member1"] true)
             (Object (item podsMapping "web" managed)) "member1" "ADDED"
             (mkDoc ∅ (Ok webTable)) webTable eq_refl eq_refl).
    constructor; [discriminate|constructor].
  - apply (Hlater (options Members ["member1"] false) (Some servicesMapping) webTable
             (mkColumn "NAME" "string" "name" 0) [mkColumn "AGE" "string" "" 0]
             eq_refl).
Defined.






(** Two members that cannot be reached.  When the task of the second
    appends to the list it read before the first had appended, the run
    returns the error of the second alone; when no append is stale, it
    returns both. *)
Lemma overlapping_appends_lose_an_error :
  Run printGeneric (options Members ["member1"; "member2"] false) twoUnreachable
    ["pods"] [mkStep 0 0; mkStep 1 1] world_init
  = (Done (Some (Aggregate [inaccessible "member2"])), world_init) /\
  Run printGeneric (options Members ["member1"; "member2"] false) twoUnreachable
    ["pods"] [0; 1] world_init
  = (Done (Some (Aggregate [inaccessible "member1"; inaccessible "member2"])),
     world_init).
Proof. split; vm_compute; reflexivity. Qed.




(** A watch on one member that cannot be reached. *)
Lemma watch_without_handles_witness :
  watch (options Members ["member1"] true) [] world_init
  = (Failed "not to find obj that is watched", world_init) /\
  Run noGeneric (options Members ["member1"] true) oneUnreachable ["pods"] [0]
    world_init
  = (Done (Some (PlainError "not to find obj that is watched")), world_init).
Proof.
  apply (watch_without_handles noGeneric (options Members ["member1"] true)
           oneUnreachable ["pods"] [0] [("member1", unreachable)] world_init).
  - reflexivity.
  - reflexivity.
  - discriminate.
  - intros cluster mf [[= -> ->]|Hin]%elem_of_cons.
    + right. left. split; [reflexivity|]. by eexists.
    + by apply elem_of_nil in Hin.
Defined.

(** Members only, no member, no record. *)
Lemma empty_listing_diagnostic_witness :
  ErrOut (printObjs (options Members [] false) [] [] world_init).2
  = ["No member Clusters found in Karmada control plane" +:+ LF] /\
  NewAggregate [] = None.
Proof.
  apply (empty_listing_diagnostic (options Members [] false) [] world_init
           (printObjs (options Members [] false) [] [] world_init).2);
    vm_compute; reflexivity.
Defined.

(** ** Further properties, on examples *)

(** A pod and a service, in either order. *)
Lemma multipleGVKsRequested_any_order_witness :
  multipleGVKsRequested [webOfMember1; dbOfMember2]
  = multipleGVKsRequested [dbOfMember2; webOfMember1] /\
  (multipleGVKsRequested [webOfMember1; dbOfMember2] = true <->
   exists o1 o2, o1 ∈ [dbOfMember2; webOfMember1] /\ o2 ∈ [dbOfMember2; webOfMember1] /\
     GroupVersionKind_ (Mapping (Info_ o1)) <> GroupVersionKind_ (Mapping (Info_ o2))).
Proof.
  apply (multipleGVKsRequested_any_order [webOfMember1; dbOfMember2]
           [dbOfMember2; webOfMember1]).
  apply perm_swap.
Defined.

(** The listing of one pod: the table goes to the output, and nothing
    to the error stream. *)
Lemma diagnostic_only_when_silent_witness :
  exists w',
    printObjs (options Members ["member1"] false) [webOfMember1] [] world_init
    = (Done [], w') /\
    (ErrOut w' = ErrOut world_init \/
     (ErrOut w' = ErrOut world_init
                  ++ [noResources (options Members ["member1"] false) [webOfMember1]] /\
      Out w' = Out world_init /\ @nil error = [] /\ @nil error = [] /\
      IgnoreNotFound (options Members ["member1"] false) = false)).
Proof.
  eexists. split; [vm_compute; reflexivity|].
  apply (diagnostic_only_when_silent (options Members ["member1"] false)
           [webOfMember1] [] world_init []).
  vm_compute. reflexivity.
Defined.

(** The table of a managed pod, followed in watch mode. *)
Lemma reconstructed_cells_match_columns_witness :
  exists tw w',
    reconstructObj (options Members ["member1"] true)
      (Object (item podsMapping "web" managed)) (Some podsMapping)
      "member1" "ADDED" world_init = (Done tw, w') /\
    length (ColumnDefinitions tw) = 4 /\
    ColumnDefinitions tw !! 1 = Some (mkColumn "CLUSTER" "string" "" 0).
Proof.
  eexists _, _. split; [vm_compute; reflexivity|].
  destruct (reconstructed_cells_match_columns (options Members ["member1"] true)
              (Object (item podsMapping "web" managed))
              (mkDoc ∅ (Ok webTable)) webTable (Some podsMapping)
              "member1" "ADDED" world_init _ _
              (mkColumn "CLUSTER" "string" "" 0) (mkColumn "ADOPTION" "string" "" 0)
              (mkColumn "NAME" "string" "name" 0) [mkColumn "AGE" "string" "" 0]
              eq_refl eq_refl eq_refl eq_refl eq_refl) as (Hlen & Hcol & _).
  split; [exact Hlen|exact Hcol].
Defined.

(** Two pods, of two members. *)
Lemma reconstructionRow_keeps_rows_in_order_witness :
  exists rows m t,
    reconstructionRow [webOfMember1; apiOfMember2] emptyTable = Done (rows, m, t) /\
    map Raw rows = flat_map rawsOf [webOfMember1; apiOfMember2] /\
    m = Some (Mapping (Info_ apiOfMember2)) /\
    exists tb, tableOf apiOfMember2 = Some tb /\
               ColumnDefinitions t = ColumnDefinitions tb.
Proof.
  eexists _, _, _. split; [vm_compute; reflexivity|].
  apply (reconstructionRow_keeps_rows_in_order [webOfMember1; apiOfMember2]
           apiOfMember2 emptyTable); vm_compute; reflexivity.
Defined.

(** The table of a managed pod has a row with two cells: it is
    rebuilt. *)
Lemma reconstructObj_succeeds_iff_witness :
  exists t w',
    reconstructObj (options Members ["member1"] true)
      (Object (item podsMapping "web" managed)) (Some podsMapping)
      "member1" "ADDED" world_init = (Done t, w').
Proof.
  apply (proj1 (reconstructObj_succeeds_iff (options Members ["member1"] true)
                  (Object (item podsMapping "web" managed)) (Some podsMapping)
                  "member1" "ADDED" world_init
                  (mkColumn "CLUSTER" "string" "" 0)
                  (mkColumn "ADOPTION" "string" "" 0) eq_refl)).
  exists (mkDoc ∅ (Ok webTable)), webTable.
  split; [reflexivity|]. split; [reflexivity|].
  constructor; [discriminate|constructor].
Defined.


(** [-o json] on a member that cannot be reached: no error is
    returned. *)
Lemma generic_output_returns_no_error_witness :
  exists w',
    Run noGeneric (generic Members ["member1"]) oneUnreachable ["pods"] [0] world_init
    = (Done None, w').
Proof.
  apply (generic_output_returns_no_error noGeneric (generic Members ["member1"])
           oneUnreachable ["pods"] [0] [("member1", unreachable)] world_init).
  - intros g r w. eexists _, _. reflexivity.
  - reflexivity.
  - reflexivity.
  - reflexivity.
Defined.

(** The control plane and one member, both healthy. *)
Lemma rendered_records_are_from_targets_witness :
  exists c,
    Run noGeneric (options All ["member1"] false) oneMember ["pods"] [0] world_init
    = (do allErrs <- printObjs (options All ["member1"] false)
                       (sort_Slice Obj lessResource (objs c)) (allErrs c);
       ret (NewAggregate allErrs)) world_init /\
    Forall (fromTargets (options All ["member1"] false))
           (sort_Slice Obj lessResource (objs c)).
Proof.
  apply (rendered_records_are_from_targets noGeneric (options All ["member1"] false)
           oneMember ["pods"] [0]
           [("member1", serving (listing [item podsMapping "web" managed]))]
           world_init); reflexivity.
Defined.

(** Two members, their tasks ending in either order, no append being
    stale. *)
Lemma collection_independent_of_task_order_witness :
  exists c1 c2,
    runTasks printGeneric (options Members ["member1"; "member2"] false)
      (schedule [0; 1] twoMembers) [] (mkCollected [] [] []) ["pods"] world_init
    = (Done c1, world_init) /\
    runTasks printGeneric (options Members ["member1"; "member2"] false)
      (schedule [1; 0] twoMembers) [] (mkCollected [] [] []) ["pods"] world_init
    = (Done c2, world_init) /\
    objs c1 ≡ₚ objs c2 /\ watchObjs c1 ≡ₚ watchObjs c2 /\
    allErrs c2 ⊆+ allErrs c1 /\ allErrs c1 ≡ₚ allErrs c2.
Proof.
  destruct (collection_independent_of_task_order printGeneric
              (options Members ["member1"; "member2"] false) twoMembers ["pods"]
              (promptly [0; 1]) (promptly [1; 0]) (mkCollected [] [] []) world_init
              eq_refl (perm_swap 1 0 []))
    as (c1 & c2 & H1 & H2 & Hobjs & Hwatch & Hsub & Hperm).
  exists c1, c2. split; [exact H1|]. split; [exact H2|].
  split; [exact Hobjs|]. split; [exact Hwatch|]. split.
  - apply Hsub. repeat constructor.
  - apply Hperm; repeat constructor.
Defined.

(** The control plane as scope, [--clusters=member1], and a registry
    that cannot be listed. *)
Lemma control_plane_scope_contacts_no_member_witness :
  exists g',
    HandleClusterScopeFlags ["member1"] (Error "forbidden")
      (options KarmadaControlPlane [] false) = (g', None) /\
    TargetMemberClusters g' = [] /\
    forall f f' args sched sched' w,
      controlPlane f = controlPlane f' ->
      Run noGeneric g' f args sched w = Run noGeneric g' f' args sched' w.
Proof.
  apply (control_plane_scope_contacts_no_member noGeneric ["member1"]
           (Error "forbidden") (options KarmadaControlPlane [] false)).
  reflexivity.
Defined.

(** The watch of two members, a pod each: it ends up waiting, with both
    watches opened. *)
Lemma watch_opens_every_stream_witness :
  ErrOut (watch (options Members ["member1"; "member2"] true) twoHandles
            world_init).2 = [] /\
  exists opened,
    Subscribed (watch (options Members ["member1"; "member2"] true) twoHandles
                  world_init).2 = [] ++ opened /\
    opened ≡ₚ ["member1"; "member2"].
Proof.
  destruct (watch_opens_every_stream (options Members ["member1"; "member2"] true)
              twoHandles world_init Blocked
              (watch (options Members ["member1"; "member2"] true) twoHandles
                 world_init).2) as (He & _ & Hs & _); [vm_compute; reflexivity|].
  split; [exact He|exact (Hs eq_refl)].
Defined.

End Examples.
